(** * NextDevServer: route resolution, transform cache and mock responses

    A shallow embedding of the request-serving core of the Next.js-compatible
    dev server (frameworks/next-dev-server.ts): the Pages-router and
    App-router resolvers, the content-hash transform cache, the App-router
    route-handler method dispatch, the buffered and the streaming mock
    responses, and the construction of the mock request.

    JavaScript strings are [string]; JavaScript objects used as maps are
    [gmap string _]; the transform cache, a JavaScript [Map] whose iteration
    order is observable, is an association list in insertion order. *)

From Stdlib Require Import String Ascii List Bool Arith Lia DecimalString.
From stdpp Require Import base strings gmap list.
Import ListNotations.

Local Open Scope string_scope.
Local Open Scope list_scope.

(** ** JavaScript string primitives used by the server *)

Module Js.

(** [s.startsWith(p)] *)
Definition startsWith (p s : string) : bool := String.prefix p s.

(** [s.slice(n)] for [0 <= n] *)
Fixpoint sliceFrom (n : nat) (s : string) : string :=
  match n, s with
  | O, _ => s
  | S n', String _ s' => sliceFrom n' s'
  | S _, EmptyString => EmptyString
  end.

(** [s.slice(a, -b)] for [0 <= a] and [0 < b] *)
Definition slice (a b : nat) (s : string) : string :=
  String.substring a (String.length s - b - a) s.

(** [s.endsWith(suf)] *)
Definition endsWith (suf s : string) : bool :=
  (String.length suf <=? String.length s)%nat
  && String.eqb (sliceFrom (String.length s - String.length suf) s) suf.

(** [s.includes(sub)] *)
Fixpoint includes (sub s : string) : bool :=
  String.prefix sub s
  || match s with
     | EmptyString => false
     | String _ s' => includes sub s'
     end.

(** [s.replace(pat, '')] with a string pattern: the first occurrence only. *)
Fixpoint replaceFirst (pat s : string) : string :=
  if String.prefix pat s then sliceFrom (String.length pat) s
  else match s with
       | EmptyString => EmptyString
       | String c s' => String c (replaceFirst pat s')
       end.

(** [s.split(sep)] for a one-character separator. *)
Fixpoint split (sep : ascii) (s : string) : list string :=
  match s with
  | EmptyString => [EmptyString]
  | String c s' =>
      if Ascii.eqb c sep then EmptyString :: split sep s'
      else match split sep s' with
           | x :: xs => String c x :: xs
           | [] => [String c EmptyString]
           end
  end.

(** Truthiness of a string: only [''] is falsy. *)
Definition truthy (s : string) : bool := negb (String.eqb s "").

(** [pathname.split('/').filter(Boolean)] *)
Definition segmentsOf (pathname : string) : list string :=
  List.filter truthy (split "/" pathname).

(** [/^<open>[^<close>]+<close>$/.test(s)]: the two regular expressions of
    the resolvers, [/^\[([^\]]+)\]$/] and [/^\([^)]+\)$/], are instances. *)
Definition delimited (opening closing : ascii) (s : string) : bool :=
  match s with
  | EmptyString => false
  | String c body =>
      Ascii.eqb c opening
      && (2 <=? String.length body)%nat
      && endsWith (String closing EmptyString) body
      && negb (includes (String closing EmptyString)
                        (String.substring 0 (String.length body - 1) body))
  end.

(** Position of the last ['/'] of [s], if any. *)
Fixpoint lastSlash (s : string) : option nat :=
  match s with
  | EmptyString => None
  | String c s' =>
      match lastSlash s' with
      | Some i => Some (S i)
      | None => if Ascii.eqb c "/" then Some O else None
      end
  end.

(** [s.replace(/\/[^/]+$/, '')]: drop a last non-empty path segment. *)
Definition dropLastSegment (s : string) : string :=
  match lastSlash s with
  | Some i =>
      if (S i <? String.length s)%nat then String.substring 0 i s else s
  | None => s
  end.

Definition upperChar (c : ascii) : ascii :=
  let n := nat_of_ascii c in
  if ((97 <=? n) && (n <=? 122))%nat then ascii_of_nat (n - 32) else c.

Definition lowerChar (c : ascii) : ascii :=
  let n := nat_of_ascii c in
  if ((65 <=? n) && (n <=? 90))%nat then ascii_of_nat (n + 32) else c.

Fixpoint mapChars (f : ascii -> ascii) (s : string) : string :=
  match s with
  | EmptyString => EmptyString
  | String c s' => String (f c) (mapChars f s')
  end.

(** [s.toUpperCase()] and [s.toLowerCase()] on ASCII text (HTTP method
    names and export names are ASCII tokens). *)
Definition toUpperCase : string -> string := mapChars upperChar.
Definition toLowerCase : string -> string := mapChars lowerChar.

(** [a || b] on values that are an object or [null]. *)
Definition orElse {A : Type} (a b : option A) : option A :=
  match a with
  | Some _ => a
  | None => b
  end.

(** A [for ... of] loop whose body returns on the first non-null result. *)
Fixpoint firstSome {A B : Type} (f : A -> option B) (l : list A) : option B :=
  match l with
  | [] => None
  | x :: l' =>
      match f x with
      | Some r => Some r
      | None => firstSome f l'
      end
  end.

End Js.

(** ** The virtual file system, as the server observes it

    [exists_] and [isDirectory] are the helpers of the [DevServer] base class;
    [readdirSync] and [readFileSync] throw on a missing entry, which is [None]
    here. *)

Record VirtualFS : Type := {
  exists_ : string -> bool;
  isDirectory : string -> bool;
  readdirSync : string -> option (list string);
  readFileSync : string -> option string;
}.

(** A concrete file system given by its files (absolute path, content);
    directories are the proper ancestors of the files. *)
Module MemFS.

Definition isFile (files : list (string * string)) (p : string) : bool :=
  existsb (fun f => String.eqb (fst f) p) files.

Definition isDir (files : list (string * string)) (p : string) : bool :=
  existsb (fun f => Js.startsWith (p +:+ "/") (fst f)) files.

Definition childOf (p : string) (f : string) : option string :=
  if Js.startsWith (p +:+ "/") f
  then head (Js.split "/" (Js.sliceFrom (String.length p + 1) f))
  else None.

Fixpoint dedup (l : list string) : list string :=
  match l with
  | [] => []
  | x :: l' => x :: List.filter (fun y => negb (String.eqb x y)) (dedup l')
  end.

Definition children (files : list (string * string)) (p : string) : list string :=
  dedup (omap (fun f => childOf p (fst f)) files).

Definition make (files : list (string * string)) : VirtualFS :=
  {| exists_ := fun p => isFile files p || isDir files p;
     isDirectory := isDir files;
     readdirSync := fun p => if isDir files p then Some (children files p) else None;
     readFileSync := fun p => snd <$> List.find (fun f => String.eqb (fst f) p) files |}.

End MemFS.

(** The extensions tried by the page resolvers, in order. *)
Definition extensions : list string := [".jsx"; ".tsx"; ".js"; ".ts"].

(** ** Pages router: [resolvePageFile] and [resolveDynamicRoute] *)

Module Pages.
Section Resolver.

Variable vfs : VirtualFS.
Variable pagesDir : string.

(** [for (const ext of extensions) if (this.exists(f(ext))) return f(ext)] *)
Definition firstExisting (f : string -> string) : option string :=
  List.find (exists_ vfs) (List.map f extensions).

(** Loop body: [entry] is a dynamic file such as [[id].jsx]. *)
Definition dynamicFile (dirPath : string) (rest : list string) (entry : string)
  : option string :=
  Js.firstSome
    (fun ext =>
       let nameWithoutExt := Js.replaceFirst ext entry in
       if Js.endsWith ext entry && Js.delimited "[" "]" nameWithoutExt then
         match rest with
         | [] =>
             let filePath := dirPath +:+ "/" +:+ entry in
             if exists_ vfs filePath then Some filePath else None
         | _ :: _ => None
         end
       else None)
    extensions.

(** Test of the loop body: [entry] names a dynamic directory such as [[id]]. *)
Definition isDynamicDirName (entry : string) : bool :=
  Js.startsWith "[" entry && Js.endsWith "]" entry && negb (Js.includes "." entry).

(** Loop body: [entry] is a catch-all file such as [[...slug].jsx]. *)
Definition catchAllFile (dirPath : string) (entry : string) : option string :=
  Js.firstSome
    (fun ext =>
       if Js.startsWith "[..." entry && Js.endsWith ("]" +:+ ext) entry then
         let filePath := dirPath +:+ "/" +:+ entry in
         if exists_ vfs filePath then Some filePath else None
       else None)
    extensions.

(** The inner [tryPath] of [resolveDynamicRoute]. *)
Fixpoint tryPath (dirPath : string) (remainingSegments : list string)
  : option string :=
  match remainingSegments with
  | [] => firstExisting (fun ext => dirPath +:+ "/index" +:+ ext)
  | current :: rest =>
      let exactPath := dirPath +:+ "/" +:+ current in
      let exactFile :=
        match rest with
        | [] => firstExisting (fun ext => exactPath +:+ ext)
        | _ :: _ => None
        end in
      match exactFile with
      | Some filePath => Some filePath
      | None =>
          let exactResult :=
            if isDirectory vfs exactPath then tryPath exactPath rest else None in
          match exactResult with
          | Some r => Some r
          | None =>
              match readdirSync vfs dirPath with
              | None => None
              | Some entries =>
                  Js.firstSome
                    (fun entry =>
                       Js.orElse (dynamicFile dirPath rest entry)
                         (Js.orElse
                            (if isDynamicDirName entry then
                               let dynamicPath := dirPath +:+ "/" +:+ entry in
                               if isDirectory vfs dynamicPath
                               then tryPath dynamicPath rest
                               else None
                             else None)
                            (catchAllFile dirPath entry)))
                    entries
              end
          end
      end
  end.

Definition resolveDynamicRoute (pathname : string) : option string :=
  match Js.segmentsOf pathname with
  | [] => None
  | segments => tryPath pagesDir segments
  end.

Definition resolvePageFile (pathname : string) : option string :=
  let pathname := if String.eqb pathname "/" then "/index" else pathname in
  Js.orElse (firstExisting (fun ext => pagesDir +:+ pathname +:+ ext))
    (Js.orElse (firstExisting (fun ext => pagesDir +:+ pathname +:+ "/index" +:+ ext))
       (resolveDynamicRoute pathname)).

End Resolver.
End Pages.

(** ** App router: [resolveAppRoute] and [resolveAppDynamicRoute] *)

(** A route parameter: one segment, or the segments a catch-all consumed. *)
Inductive ParamValue : Type :=
  | ParamString (s : string)
  | ParamList (l : list string).

Record AppRoute : Type := {
  page : string;
  layouts : list string;
  params : gmap string ParamValue;
  loading : option string;
  error : option string;
  notFound : option string;
}.

Module App.
Section Resolver.

Variable vfs : VirtualFS.
Variable appDir : string.

(** [layouts.includes(layoutPath)] *)
Definition includesPath (layouts : list string) (layoutPath : string) : bool :=
  existsb (String.eqb layoutPath) layouts.

Definition collectLayout (dirPath : string) (layouts : list string) : list string :=
  match
    List.find
      (fun layoutPath => exists_ vfs layoutPath && negb (includesPath layouts layoutPath))
      (List.map (fun ext => dirPath +:+ "/layout" +:+ ext) extensions)
  with
  | Some layoutPath => layouts ++ [layoutPath]
  | None => layouts
  end.

Definition findPage (dirPath : string) : option string :=
  List.find (exists_ vfs) (List.map (fun ext => dirPath +:+ "/page" +:+ ext) extensions).

Definition findConventionFile (dirPath name : string) : option string :=
  List.find (exists_ vfs)
    (List.map (fun ext => dirPath +:+ "/" +:+ name +:+ ext) extensions).

(** The [while] loop of [findNearestConventionFile]; every iteration but the
    last shortens [current], so [S (length dirPath)] iterations suffice. *)
Fixpoint findNearestLoop (fuel : nat) (current name : string) : option string :=
  match fuel with
  | O => None
  | S fuel' =>
      if Js.startsWith appDir current then
        match findConventionFile current name with
        | Some file => Some file
        | None =>
            let parent := Js.dropLastSegment current in
            if String.eqb parent current then None
            else findNearestLoop fuel' parent name
        end
      else None
  end.

Definition findNearestConventionFile (dirPath name : string) : option string :=
  findNearestLoop (S (String.length dirPath)) dirPath name.

(** [/^\([^)]+\)$/.test(e)] *)
Definition isRouteGroupName (e : string) : bool := Js.delimited "(" ")" e.

Definition getRouteGroups (dirPath : string) : list string :=
  match readdirSync vfs dirPath with
  | Some entries =>
      List.filter
        (fun e => isRouteGroupName e && isDirectory vfs (dirPath +:+ "/" +:+ e))
        entries
  | None => []
  end.

(** The route returned for a page found in [dirPath]. *)
Definition routeAt (dirPath page : string) (layouts : list string)
    (params : gmap string ParamValue) : AppRoute :=
  {| page := page;
     layouts := layouts;
     params := params;
     loading := findNearestConventionFile dirPath "loading";
     error := findNearestConventionFile dirPath "error";
     notFound := findNearestConventionFile dirPath "not-found" |}.

(** [tryPath(dirPath, [], layouts, params)]: the terminal directory. *)
Definition tryTerminal (dirPath : string) (layouts : list string)
    (params : gmap string ParamValue) : option AppRoute :=
  let layouts := collectLayout dirPath layouts in
  match findPage dirPath with
  | Some page => Some (routeAt dirPath page layouts params)
  | None =>
      Js.firstSome
        (fun group =>
           let groupPath := dirPath +:+ "/" +:+ group in
           let groupLayouts := collectLayout groupPath layouts in
           match findPage groupPath with
           | Some page => Some (routeAt groupPath page groupLayouts params)
           | None => None
           end)
        (getRouteGroups dirPath)
  end.

(** The body of the loops over directory entries: the [if / else if] chain
    on catch-all, optional catch-all and single dynamic names. [descend] is
    the recursive call of [tryPath] on [rest]. *)
Definition tryDynamicEntry
    (descend : string -> list string -> gmap string ParamValue -> option AppRoute)
    (basePath current : string) (rest : list string) (layouts : list string)
    (params : gmap string ParamValue) (entry : string) : option AppRoute :=
  let dynamicPath := basePath +:+ "/" +:+ entry in
  if Js.startsWith "[..." entry && Js.endsWith "]" entry then
    if isDirectory vfs dynamicPath then
      let paramName := Js.slice 4 1 entry in
      let newParams := <[paramName := ParamList (current :: rest)]> params in
      tryTerminal dynamicPath layouts newParams
    else None
  else if Js.startsWith "[[..." entry && Js.endsWith "]]" entry then
    if isDirectory vfs dynamicPath then
      let paramName := Js.slice 5 2 entry in
      let newParams := <[paramName := ParamList (current :: rest)]> params in
      tryTerminal dynamicPath layouts newParams
    else None
  else if Js.startsWith "[" entry && Js.endsWith "]" entry
          && negb (Js.includes "." entry) then
    if isDirectory vfs dynamicPath then
      let paramName := Js.slice 1 1 entry in
      let newParams := <[paramName := ParamString current]> params in
      descend dynamicPath layouts newParams
    else None
  else None.

(** The inner [tryPath] of [resolveAppDynamicRoute]. *)
Fixpoint tryPath (dirPath : string) (remainingSegments : list string)
    (layouts : list string) (params : gmap string ParamValue) {struct remainingSegments}
  : option AppRoute :=
  match remainingSegments with
  | [] => tryTerminal dirPath layouts params
  | current :: rest =>
      let layouts := collectLayout dirPath layouts in
      let exactPath := dirPath +:+ "/" +:+ current in
      let exact :=
        if isDirectory vfs exactPath then tryPath exactPath rest layouts params
        else None in
      match exact with
      | Some result => Some result
      | None =>
          let descend := fun d l p => tryPath d rest l p in
          let inGroups :=
            Js.firstSome
              (fun group =>
                 let groupPath := dirPath +:+ "/" +:+ group in
                 let groupLayouts := collectLayout groupPath layouts in
                 let groupExactPath := groupPath +:+ "/" +:+ current in
                 let groupExact :=
                   if isDirectory vfs groupExactPath
                   then tryPath groupExactPath rest groupLayouts params
                   else None in
                 match groupExact with
                 | Some result => Some result
                 | None =>
                     match readdirSync vfs groupPath with
                     | Some groupEntries =>
                         Js.firstSome
                           (tryDynamicEntry descend groupPath current rest
                              groupLayouts params)
                           groupEntries
                     | None => None
                     end
                 end)
              (getRouteGroups dirPath) in
          match inGroups with
          | Some result => Some result
          | None =>
              match readdirSync vfs dirPath with
              | Some entries =>
                  Js.firstSome
                    (tryDynamicEntry descend dirPath current rest layouts params)
                    entries
              | None => None
              end
          end
      end
  end.

(** The loop that collects the root layout before the descent starts. *)
Definition rootLayouts : list string :=
  match
    List.find (exists_ vfs)
      (List.map (fun ext => appDir +:+ "/layout" +:+ ext) extensions)
  with
  | Some rootLayout => [rootLayout]
  | None => []
  end.

Definition resolveAppDynamicRoute (segments : list string) : option AppRoute :=
  tryPath appDir segments rootLayouts ∅.

Definition resolveAppRoute (pathname : string) : option AppRoute :=
  let segments := if String.eqb pathname "/" then [] else Js.segmentsOf pathname in
  resolveAppDynamicRoute segments.

End Resolver.
End App.

(** ** Responses *)

Record ResponseData : Type := {
  statusCode : nat;
  statusMessage : string;
  headers : gmap string string;
  body : string;
}.

(** [String(n)] for a length. *)
Definition stringOfNat (n : nat) : string :=
  NilEmpty.string_of_uint (Nat.to_uint n).

(** ** The transform cache and [transformAndServe] *)

Module TransformCache.

Record Entry : Type := { code : string; hash : string }.

(** [Map<string, { code, hash }>]: keys in insertion order. *)
Definition t : Type := list (string * Entry).

Definition get (k : string) (m : t) : option Entry :=
  snd <$> List.find (fun kv => String.eqb (fst kv) k) m.

Definition has (k : string) (m : t) : bool :=
  existsb (fun kv => String.eqb (fst kv) k) m.

(** [m.set(k, v)]: an existing key keeps its place, a new key goes last. *)
Fixpoint set (k : string) (v : Entry) (m : t) : t :=
  match m with
  | [] => [(k, v)]
  | (k', v') :: m' =>
      if String.eqb k' k then (k, v) :: m' else (k', v') :: set k v m'
  end.

Fixpoint delete (k : string) (m : t) : t :=
  match m with
  | [] => []
  | (k', v') :: m' => if String.eqb k' k then m' else (k', v') :: delete k m'
  end.

Definition size (m : t) : nat := List.length m.

(** [m.keys().next().value] *)
Definition firstKey (m : t) : option string := fst <$> head m.

Definition keys (m : t) : list string := List.map fst m.

End TransformCache.

Module Transform.
Section Serve.

(** [simpleHash] of utils/hash and the compiler behind [transformCode] are
    collaborators outside this file; [transformCode] consults the file
    system for CSS modules and fails with the message of the error thrown. *)
Variable simpleHash : string -> string.
Variable transformCode : VirtualFS -> string -> string -> string + string.
(** Message of the error [readFileSync] throws for a path. *)
Variable readError : string -> string.
(** [JSON.stringify] on a string. *)
Variable quote : string -> string.

(** The server state [transformAndServe] touches; [transformCalls] records
    the arguments of every call of [transformCode], oldest first. *)
Record State : Type := {
  transformCache : TransformCache.t;
  transformCalls : list (string * string);
}.

Definition initial : State := {| transformCache := []; transformCalls := [] |}.

Definition hitResponse (code : string) : ResponseData :=
  {| statusCode := 200;
     statusMessage := "OK";
     headers :=
       {[ "Content-Type" := "application/javascript; charset=utf-8";
          "Content-Length" := stringOfNat (String.length code);
          "Cache-Control" := "no-cache";
          "X-Transformed" := "true";
          "X-Cache" := "hit" ]};
     body := code |}.

Definition missResponse (transformed : string) : ResponseData :=
  {| statusCode := 200;
     statusMessage := "OK";
     headers :=
       {[ "Content-Type" := "application/javascript; charset=utf-8";
          "Content-Length" := stringOfNat (String.length transformed);
          "Cache-Control" := "no-cache";
          "X-Transformed" := "true" ]};
     body := transformed |}.

Definition errorResponse (message : string) : ResponseData :=
  {| statusCode := 200;
     statusMessage := "OK";
     headers :=
       {[ "Content-Type" := "application/javascript; charset=utf-8";
          "X-Transform-Error" := "true" ]};
     body := "// Transform Error: " +:+ message +:+ String "010" ""
             +:+ "console.error(" +:+ quote message +:+ ");" |}.

(** The eviction that follows [transformCache.set]. *)
Definition evict (m : TransformCache.t) : TransformCache.t :=
  if (500 <? TransformCache.size m)%nat then
    match TransformCache.firstKey m with
    | Some firstKey =>
        if Js.truthy firstKey then TransformCache.delete firstKey m else m
    | None => m
    end
  else m.

Definition transformAndServe (vfs : VirtualFS) (filePath : string) (st : State)
  : ResponseData * State :=
  match readFileSync vfs filePath with
  | None => (errorResponse (readError filePath), st)
  | Some content =>
      let hash := simpleHash content in
      let cached := TransformCache.get filePath (transformCache st) in
      let hit :=
        match cached with
        | Some entry =>
            if String.eqb (TransformCache.hash entry) hash
            then Some (TransformCache.code entry)
            else None
        | None => None
        end in
      match hit with
      | Some code => (hitResponse code, st)
      | None =>
          let calls := transformCalls st ++ [(content, filePath)] in
          match transformCode vfs content filePath with
          | inr message =>
              (errorResponse message,
               {| transformCache := transformCache st; transformCalls := calls |})
          | inl transformed =>
              let entry := {| TransformCache.code := transformed;
                              TransformCache.hash := hash |} in
              let cache := evict (TransformCache.set filePath entry (transformCache st)) in
              (missResponse transformed,
               {| transformCache := cache; transformCalls := calls |})
          end
      end
  end.

End Serve.
End Transform.

(** ** App-router route handlers: [handleAppRouteHandler] *)

Module RouteHandler.
Section Handle.

(** The platform's [Request]; its constructor rejects some methods. *)
Variable Request : Type.
Variable newRequest :
  string -> string -> gmap string string -> option string -> Request + string.

(** What awaiting a handler yields. *)
Inductive HandlerReturn : Type :=
  | ReturnsResponse (status : nat) (statusText : string)
      (respHeaders : gmap string string) (text : string)
  | ReturnsObject (json : string)
  | ReturnsOther (text : string)
  | HandlerThrows (message : string).

Definition Handler : Type := Request -> gmap string ParamValue -> HandlerReturn.

(** A property of [module.exports]: a function, or another value.
    [module.exports] is the map of the properties the module defines. *)
Inductive ExportValue : Type :=
  | ExportFunction (h : Handler)
  | ExportOther (truthy : bool).

Definition Exports : Type := gmap string ExportValue.

Variable transformApiHandler : string -> string -> string + string.
(** Running the transformed module: its [module.exports], or the error. *)
Variable evalModule : string -> Exports + string.
Variable readError : string -> string.
Variable quote : string -> string.

Definition isTruthy (v : ExportValue) : bool :=
  match v with
  | ExportFunction _ => true
  | ExportOther truthy => truthy
  end.

(** [module.exports[methodUpper] || module.exports[methodUpper.toLowerCase()]] *)
Definition lookupHandler (exports : Exports) (method : string) : option ExportValue :=
  let methodUpper := Js.toUpperCase method in
  match exports !! methodUpper with
  | Some v =>
      if isTruthy v then Some v else exports !! Js.toLowerCase methodUpper
  | None => exports !! Js.toLowerCase methodUpper
  end.

(** [JSON.stringify({ error: message })] *)
Definition errorJson (message : string) : string :=
  "{" +:+ quote "error" +:+ ":" +:+ quote message +:+ "}".

Definition jsonHeaders : gmap string string :=
  {[ "Content-Type" := "application/json; charset=utf-8" ]}.

Definition methodNotAllowed (method : string) : ResponseData :=
  {| statusCode := 405;
     statusMessage := "Method Not Allowed";
     headers := jsonHeaders;
     body := errorJson ("Method " +:+ method +:+ " not allowed") |}.

Definition internalError (message : string) : ResponseData :=
  {| statusCode := 500;
     statusMessage := "Internal Server Error";
     headers := jsonHeaders;
     body := errorJson message |}.

Definition handleAppRouteHandler (vfs : VirtualFS) (appDir : string)
    (method pathname : string) (headers : gmap string string)
    (body : option string) (routeFile : string) (search : option string)
  : ResponseData :=
  match readFileSync vfs routeFile with
  | None => internalError (readError routeFile)
  | Some code =>
      match transformApiHandler code routeFile with
      | inr message => internalError message
      | inl transformed =>
          match evalModule transformed with
          | inr message => internalError message
          | inl exports =>
              let methodUpper := Js.toUpperCase method in
              match lookupHandler exports method with
              | Some (ExportFunction handler) =>
                  let requestUrl :=
                    "http://localhost" +:+ pathname +:+ default "" search in
                  let requestBody :=
                    match body with
                    | Some b =>
                        if negb (String.eqb methodUpper "GET")
                           && negb (String.eqb methodUpper "HEAD")
                        then Some b else None
                    | None => None
                    end in
                  match newRequest requestUrl methodUpper headers requestBody with
                  | inr message => internalError message
                  | inl request =>
                      let params :=
                        match App.resolveAppRoute vfs appDir pathname with
                        | Some route => params route
                        | None => ∅
                        end in
                      match handler request params with
                      | ReturnsResponse status statusText respHeaders text =>
                          {| statusCode := status;
                             statusMessage :=
                               if Js.truthy statusText then statusText else "OK";
                             headers := respHeaders;
                             body := text |}
                      | ReturnsObject json =>
                          {| statusCode := 200;
                             statusMessage := "OK";
                             headers := jsonHeaders;
                             body := json |}
                      | ReturnsOther text =>
                          {| statusCode := 200;
                             statusMessage := "OK";
                             headers := {[ "Content-Type" := "text/plain; charset=utf-8" ]};
                             body := text |}
                      | HandlerThrows message => internalError message
                      end
                  end
              | _ => methodNotAllowed method
              end
          end
      end
  end.

End Handle.
End RouteHandler.

(** ** Mock responses handed to Pages-router API handlers *)

(** The calls a handler can make on a mock response. [write] takes the text of
    its chunk; [send] takes a string or an object; [end] takes an optional
    string; [redirect] takes a status or a URL, and an optional URL. *)
Module ResCall.
Section Calls.

Variable Json : Type.

Inductive SendData : Type :=
  | SendString (data : string)
  | SendObject (data : Json).

Inductive t : Type :=
  | status (code : nat)
  | setHeader (name value : string)
  | write (chunk : string)
  | json (data : Json)
  | send (data : SendData)
  | end_ (data : option string)
  | redirect (statusOrUrl : nat + string) (url : option string).

(** The methods that end the response. *)
Definition isTerminal (c : t) : bool :=
  match c with
  | json _ | send _ | end_ _ | redirect _ _ => true
  | _ => false
  end.

(** The calls that hand body bytes to the response. *)
Definition producesBytes (c : t) : bool :=
  match c with
  | write _ | json _ | send _ => true
  | end_ (Some data) => Js.truthy data
  | _ => false
  end.

(** [write], the one call that buffers or streams without ending. *)
Definition isWrite (c : t) : bool :=
  match c with
  | write _ => true
  | _ => false
  end.

(** [url || '/'] *)
Definition orRoot (url : option string) : string :=
  match url with
  | Some u => if Js.truthy u then u else "/"
  | None => "/"
  end.

End Calls.
End ResCall.

Arguments ResCall.SendString {Json} data.
Arguments ResCall.SendObject {Json} data.
Arguments ResCall.status {Json} code.
Arguments ResCall.setHeader {Json} name value.
Arguments ResCall.write {Json} chunk.
Arguments ResCall.json {Json} data.
Arguments ResCall.send {Json} data.
Arguments ResCall.end_ {Json} data.
Arguments ResCall.redirect {Json} statusOrUrl url.
Arguments ResCall.isTerminal {Json} c.
Arguments ResCall.producesBytes {Json} c.
Arguments ResCall.isWrite {Json} c.

(** *** [createMockResponse]: the buffered response *)

Module MockResponse.
Section Buffered.

Variable Json : Type.
(** [JSON.stringify] *)
Variable stringify : Json -> string.

(** The closure variables of [createMockResponse], the [headersSent]
    property of the returned object, and the number of times the
    [endedPromise] resolver has been called. *)
Record State : Type := {
  statusCode : nat;
  statusMessage : string;
  headers : gmap string string;
  responseBody : string;
  ended : bool;
  headersSent : bool;
  this_headersSent : bool;
  resolveEndedCalls : nat;
}.

Definition createMockResponse : State :=
  {| statusCode := 200;
     statusMessage := "OK";
     headers := ∅;
     responseBody := "";
     ended := false;
     headersSent := false;
     this_headersSent := false;
     resolveEndedCalls := 0 |}.

Definition markEnded (s : State) : State :=
  if ended s then s
  else {| statusCode := statusCode s;
          statusMessage := statusMessage s;
          headers := headers s;
          responseBody := responseBody s;
          ended := true;
          headersSent := headersSent s;
          this_headersSent := this_headersSent s;
          resolveEndedCalls := S (resolveEndedCalls s) |}.

Definition withStatus (code : nat) (s : State) : State :=
  {| statusCode := code;
     statusMessage := statusMessage s;
     headers := headers s;
     responseBody := responseBody s;
     ended := ended s;
     headersSent := headersSent s;
     this_headersSent := this_headersSent s;
     resolveEndedCalls := resolveEndedCalls s |}.

Definition withHeader (name value : string) (s : State) : State :=
  {| statusCode := statusCode s;
     statusMessage := statusMessage s;
     headers := <[name := value]> (headers s);
     responseBody := responseBody s;
     ended := ended s;
     headersSent := headersSent s;
     this_headersSent := this_headersSent s;
     resolveEndedCalls := resolveEndedCalls s |}.

Definition withBody (text : string) (s : State) : State :=
  {| statusCode := statusCode s;
     statusMessage := statusMessage s;
     headers := headers s;
     responseBody := text;
     ended := ended s;
     headersSent := headersSent s;
     this_headersSent := this_headersSent s;
     resolveEndedCalls := resolveEndedCalls s |}.

Definition write (chunk : string) (s : State) : State :=
  let s' :=
    if headersSent s then s
    else {| statusCode := statusCode s;
            statusMessage := statusMessage s;
            headers := headers s;
            responseBody := responseBody s;
            ended := ended s;
            headersSent := true;
            this_headersSent := true;
            resolveEndedCalls := resolveEndedCalls s |} in
  withBody (responseBody s' +:+ chunk) s'.

Definition json (data : Json) (s : State) : State :=
  markEnded
    (withBody (stringify data)
       (withHeader "Content-Type" "application/json; charset=utf-8" s)).

Definition send (data : ResCall.SendData Json) (s : State) : State :=
  match data with
  | ResCall.SendObject o => json o s
  | ResCall.SendString text => markEnded (withBody text s)
  end.

Definition end_ (data : option string) (s : State) : State :=
  markEnded
    match data with
    | Some d => if Js.truthy d then withBody (responseBody s +:+ d) s else s
    | None => s
    end.

Definition redirect (statusOrUrl : nat + string) (url : option string) (s : State)
  : State :=
  markEnded
    match statusOrUrl with
    | inl code => withHeader "Location" (ResCall.orRoot url) (withStatus code s)
    | inr target => withHeader "Location" target (withStatus 307 s)
    end.

Definition call (c : ResCall.t Json) (s : State) : State :=
  match c with
  | ResCall.status code => withStatus code s
  | ResCall.setHeader name value => withHeader name value s
  | ResCall.write chunk => write chunk s
  | ResCall.json data => json data s
  | ResCall.send data => send data s
  | ResCall.end_ data => end_ data s
  | ResCall.redirect statusOrUrl url => redirect statusOrUrl url s
  end.

(** A handler's calls, in order, on a response. *)
Definition run (calls : list (ResCall.t Json)) (s : State) : State :=
  List.fold_left (fun s c => call c s) calls s.

Definition isEnded (s : State) : bool := ended s.

Definition toResponse (s : State) : ResponseData :=
  Build_ResponseData (statusCode s) (statusMessage s)
    (<["Content-Length" := stringOfNat (String.length (responseBody s))]> (headers s))
    (responseBody s).

End Buffered.
End MockResponse.

(** *** [createStreamingMockResponse]: the streaming response *)

Module StreamingResponse.
Section Streaming.

Variable Json : Type.
Variable stringify : Json -> string.

(** The invocations of the three callbacks. *)
Inductive Event : Type :=
  | onStart (statusCode : nat) (statusMessage : string) (headers : gmap string string)
  | onChunk (chunk : string)
  | onEnd.

(** The closure variables, the resolver count, and the callback
    invocations so far, oldest first. *)
Record State : Type := {
  statusCode : nat;
  statusMessage : string;
  headers : gmap string string;
  ended : bool;
  headersSent : bool;
  resolveEndedCalls : nat;
  trace : list Event;
}.

Definition createStreamingMockResponse : State :=
  {| statusCode := 200;
     statusMessage := "OK";
     headers := ∅;
     ended := false;
     headersSent := false;
     resolveEndedCalls := 0;
     trace := [] |}.

Definition emit (e : Event) (s : State) : State :=
  {| statusCode := statusCode s;
     statusMessage := statusMessage s;
     headers := headers s;
     ended := ended s;
     headersSent := headersSent s;
     resolveEndedCalls := resolveEndedCalls s;
     trace := trace s ++ [e] |}.

Definition sendHeaders (s : State) : State :=
  if headersSent s then s
  else emit (onStart (statusCode s) (statusMessage s) (headers s))
         {| statusCode := statusCode s;
            statusMessage := statusMessage s;
            headers := headers s;
            ended := ended s;
            headersSent := true;
            resolveEndedCalls := resolveEndedCalls s;
            trace := trace s |}.

Definition markEnded (s : State) : State :=
  if ended s then s
  else
    let s1 := sendHeaders s in
    let s2 := emit onEnd
                {| statusCode := statusCode s1;
                   statusMessage := statusMessage s1;
                   headers := headers s1;
                   ended := true;
                   headersSent := headersSent s1;
                   resolveEndedCalls := resolveEndedCalls s1;
                   trace := trace s1 |} in
    {| statusCode := statusCode s2;
       statusMessage := statusMessage s2;
       headers := headers s2;
       ended := ended s2;
       headersSent := headersSent s2;
       resolveEndedCalls := S (resolveEndedCalls s2);
       trace := trace s2 |}.

Definition withStatus (code : nat) (s : State) : State :=
  {| statusCode := code;
     statusMessage := statusMessage s;
     headers := headers s;
     ended := ended s;
     headersSent := headersSent s;
     resolveEndedCalls := resolveEndedCalls s;
     trace := trace s |}.

Definition withHeader (name value : string) (s : State) : State :=
  {| statusCode := statusCode s;
     statusMessage := statusMessage s;
     headers := <[name := value]> (headers s);
     ended := ended s;
     headersSent := headersSent s;
     resolveEndedCalls := resolveEndedCalls s;
     trace := trace s |}.

Definition write (chunk : string) (s : State) : State :=
  emit (onChunk chunk) (sendHeaders s).

Definition json (data : Json) (s : State) : State :=
  markEnded
    (emit (onChunk (stringify data))
       (sendHeaders (withHeader "Content-Type" "application/json; charset=utf-8" s))).

Definition send (data : ResCall.SendData Json) (s : State) : State :=
  match data with
  | ResCall.SendObject o => json o s
  | ResCall.SendString text => markEnded (emit (onChunk text) (sendHeaders s))
  end.

Definition end_ (data : option string) (s : State) : State :=
  markEnded
    match data with
    | Some d => if Js.truthy d then emit (onChunk d) (sendHeaders s) else s
    | None => s
    end.

Definition redirect (statusOrUrl : nat + string) (url : option string) (s : State)
  : State :=
  markEnded
    match statusOrUrl with
    | inl code => withHeader "Location" (ResCall.orRoot url) (withStatus code s)
    | inr target => withHeader "Location" target (withStatus 307 s)
    end.

Definition call (c : ResCall.t Json) (s : State) : State :=
  match c with
  | ResCall.status code => withStatus code s
  | ResCall.setHeader name value => withHeader name value s
  | ResCall.write chunk => write chunk s
  | ResCall.json data => json data s
  | ResCall.send data => send data s
  | ResCall.end_ data => end_ data s
  | ResCall.redirect statusOrUrl url => redirect statusOrUrl url s
  end.

Definition run (calls : list (ResCall.t Json)) (s : State) : State :=
  List.fold_left (fun s c => call c s) calls s.

Definition isStart (e : Event) : bool :=
  match e with onStart _ _ _ => true | _ => false end.
Definition isChunk (e : Event) : bool :=
  match e with onChunk _ => true | _ => false end.
Definition isEnd (e : Event) : bool :=
  match e with onEnd => true | _ => false end.

(** Number of invocations of a callback in a trace. *)
Definition count (p : Event -> bool) (t : list Event) : nat :=
  List.length (List.filter p t).

End Streaming.
End StreamingResponse.

(** ** The platform's [URL], for the references the server receives

    [parse input] models [new URL(input, 'http://localhost')] for an
    origin-relative reference: the fragment starts at the first ['#'], the
    query at the first ['?'] before it, and the path is what precedes both.
    The percent-encoding and dot-segment normalisation the platform applies
    to the path rewrite it without introducing ['?'] or ['#'] and are left
    out. *)

Module Url.

(** The part of [s] before the first character satisfying [stop]. *)
Fixpoint before (stop : ascii -> bool) (s : string) : string :=
  match s with
  | EmptyString => EmptyString
  | String c s' => if stop c then EmptyString else String c (before stop s')
  end.

(** The part of [s] after the first character satisfying [stop]. *)
Fixpoint after (stop : ascii -> bool) (s : string) : string :=
  match s with
  | EmptyString => EmptyString
  | String c s' => if stop c then s' else after stop s'
  end.

Record t : Type := {
  pathname : string;
  search : string;
}.

Definition isHash (c : ascii) : bool := Ascii.eqb c "#".
Definition isQuestion (c : ascii) : bool := Ascii.eqb c "?".

Definition parse (input : string) : t :=
  let noFragment := before isHash input in
  let path := before isQuestion noFragment in
  let query := after isQuestion noFragment in
  {| pathname := if Js.startsWith "/" path then path else "/" +:+ path;
     search := if Js.truthy query then "?" +:+ query else "" |}.

Section SearchParams.

(** Decoding of a name or value of a query string. *)
Variable formDecode : string -> string.

(** [url.searchParams], as its list of entries. *)
Definition searchParams (u : t) : list (string * string) :=
  List.map
    (fun piece =>
       (formDecode (before (fun c => Ascii.eqb c "=") piece),
        formDecode (after (fun c => Ascii.eqb c "=") piece)))
    (List.filter Js.truthy (Js.split "&" (Js.sliceFrom 1 (search u)))).

End SearchParams.

End Url.

(** [Object.fromEntries]: a later entry overrides an earlier one. *)
Definition fromEntries (entries : list (string * string)) : gmap string string :=
  List.fold_left (fun m kv => <[fst kv := snd kv]> m) entries ∅.

(** ** [createMockRequest] and the way Pages-router API requests reach it *)

Module MockRequest.
Section Request.

Variable Json : Type.
(** [JSON.parse], which throws on malformed text. *)
Variable parseJson : string -> option Json.
(** [decodeURIComponent], which throws on a malformed escape. *)
Variable decodeURIComponent : string -> option string.
Variable formDecode : string -> string.

Record t : Type := {
  method : string;
  url : string;
  headers : gmap string string;
  query : gmap string string;
  body : option Json;
  cookies : gmap string string;
}.

Definition isSpace (c : ascii) : bool :=
  let n := nat_of_ascii c in
  (n =? 32)%nat || ((9 <=? n) && (n <=? 13))%nat.

Fixpoint trimStart (s : string) : string :=
  match s with
  | EmptyString => EmptyString
  | String c s' => if isSpace c then trimStart s' else s
  end.

Fixpoint trimEnd (s : string) : string :=
  match s with
  | EmptyString => EmptyString
  | String c s' =>
      match trimEnd s' with
      | EmptyString => if isSpace c then EmptyString else String c EmptyString
      | rest => String c rest
      end
  end.

(** [s.trim()] on ASCII white space. *)
Definition trim (s : string) : string := trimEnd (trimStart s).

(** [parseCookies]; [None] when [decodeURIComponent] throws. *)
Definition parseCookies (cookieHeader : string) : option (gmap string string) :=
  if negb (Js.truthy cookieHeader) then Some ∅
  else
    List.fold_left
      (fun acc cookie =>
         match acc with
         | None => None
         | Some cookies =>
             match Js.split "=" (trim cookie) with
             | name :: value :: _ =>
                 if Js.truthy name && Js.truthy value then
                   match decodeURIComponent value with
                   | Some decoded => Some (<[name := decoded]> cookies)
                   | None => None
                   end
                 else Some cookies
             | _ => Some cookies
             end
         end)
      (Js.split ";" cookieHeader) (Some ∅).

(** [createMockRequest]; [None] when it throws. *)
Definition createMockRequest (method pathname : string)
    (headers : gmap string string) (body : option string) : option t :=
  let url := Url.parse pathname in
  let query := fromEntries (Url.searchParams formDecode url) in
  match
    match body with
    | Some b =>
        match parseJson b with
        | Some v => Some (Some v)
        | None => None
        end
    | None => Some None
    end
  with
  | None => None
  | Some parsedBody =>
      match parseCookies (default "" (headers !! "cookie")) with
      | None => None
      | Some cookies =>
          Some {| method := method;
                  url := pathname;
                  headers := headers;
                  query := query;
                  body := parsedBody;
                  cookies := cookies |}
      end
  end.

(** *** The dispatcher's path, from the requested URL *)

Definition isDigit (c : ascii) : bool :=
  let n := nat_of_ascii c in ((48 <=? n) && (n <=? 57))%nat.

Fixpoint dropDigits (s : string) : string :=
  match s with
  | EmptyString => EmptyString
  | String c s' => if isDigit c then dropDigits s' else s
  end.

(** [x || '/'] *)
Definition orSlash (x : string) : string := if Js.truthy x then x else "/".

(** Strip [/^\/__virtual__\/\d+/]. *)
Definition stripVirtualPrefix (pathname : string) : string :=
  if Js.startsWith "/__virtual__/" pathname then
    let afterPrefix := Js.sliceFrom 13 pathname in
    match afterPrefix with
    | String c _ =>
        if isDigit c then orSlash (dropDigits afterPrefix) else pathname
    | EmptyString => pathname
    end
  else pathname.

Definition stripAssetPrefix (assetPrefix pathname : string) : string :=
  if Js.truthy assetPrefix && Js.startsWith assetPrefix pathname then
    let rest := Js.sliceFrom (String.length assetPrefix) pathname in
    if String.eqb rest "" || Js.startsWith "/" rest then
      let pathname := orSlash rest in
      if Js.startsWith "//" pathname then Js.sliceFrom 1 pathname else pathname
    else pathname
  else pathname.

Definition stripBasePath (basePath pathname : string) : string :=
  if Js.truthy basePath && Js.startsWith basePath pathname then
    let rest := Js.sliceFrom (String.length basePath) pathname in
    if String.eqb rest "" || Js.startsWith "/" rest then orSlash rest
    else pathname
  else pathname.

(** The [pathname] of [handleRequest] once the prefixes are stripped. *)
Definition requestPathname (assetPrefix basePath url : string) : string :=
  stripBasePath basePath
    (stripAssetPrefix assetPrefix
       (stripVirtualPrefix (Url.pathname (Url.parse url)))).

(** *** [resolveApiFile] and the request [handleApiRoute] builds *)

Definition apiExtensions : list string := [".js"; ".ts"; ".jsx"; ".tsx"].

(** [pathname.replace(/^\/api/, pagesDir + '/api')] *)
Definition apiPathOf (pagesDir pathname : string) : string :=
  if Js.startsWith "/api" pathname
  then pagesDir +:+ "/api" +:+ Js.sliceFrom 4 pathname
  else pathname.

Definition resolveApiFile (vfs : VirtualFS) (pagesDir pathname : string)
  : option string :=
  let apiPath := apiPathOf pagesDir pathname in
  Js.orElse
    (List.find (exists_ vfs) (List.map (fun ext => apiPath +:+ ext) apiExtensions))
    (List.find (exists_ vfs)
       (List.map (fun ext => apiPath +:+ "/index" +:+ ext) apiExtensions)).

Variable transformApiHandler : string -> string -> string + string.

(** The mock request [handleApiRoute] hands to the handler, when it gets as
    far as executing one. *)
Definition handleApiRoute_request (vfs : VirtualFS) (pagesDir : string)
    (method pathname : string) (headers : gmap string string)
    (body : option string) : option t :=
  match resolveApiFile vfs pagesDir pathname with
  | None => None
  | Some apiFile =>
      match readFileSync vfs apiFile with
      | None => None
      | Some code =>
          match transformApiHandler code apiFile with
          | inr _ => None
          | inl _ => createMockRequest method pathname headers body
          end
      end
  end.

(** The same, from [handleRequest]: the branch taken for a path under
    [/api/] that no App-router route handler claims. *)
Definition handleRequest_apiRequest (vfs : VirtualFS)
    (pagesDir assetPrefix basePath : string)
    (method url : string) (headers : gmap string string)
    (body : option string) : option t :=
  let pathname := requestPathname assetPrefix basePath url in
  if Js.startsWith "/api/" pathname
  then handleApiRoute_request vfs pagesDir method pathname headers body
  else None.

(** The mock request of [handleStreamingRequest], which takes the path of
    the URL as it is. *)
Definition handleStreamingRequest_apiRequest (vfs : VirtualFS) (pagesDir : string)
    (method url : string) (headers : gmap string string)
    (body : option string) : option t :=
  let pathname := Url.pathname (Url.parse url) in
  if Js.startsWith "/api/" pathname
  then handleApiRoute_request vfs pagesDir method pathname headers body
  else None.

End Request.
End MockRequest.

(** ** App-router route files: [resolveAppRouteHandler] *)

Module RouteFiles.
Section Resolver.

Variable vfs : VirtualFS.
Variable appDir : string.

(** The extensions tried for [route] files, in order. *)
Definition routeExtensions : list string := [".ts"; ".js"; ".tsx"; ".jsx"].

(** [for (const ext of extensions) if (this.exists(dir/route.ext)) return ...] *)
Definition findRoute (dirPath : string) : option string :=
  List.find (exists_ vfs)
    (List.map (fun ext => dirPath +:+ "/route" +:+ ext) routeExtensions).

(** [tryPath(dirPath, [])] of [resolveAppRouteHandlerDynamic]. *)
Definition tryTerminal (dirPath : string) : option string :=
  Js.orElse (findRoute dirPath)
    match readdirSync vfs dirPath with
    | Some entries =>
        Js.firstSome
          (fun entry =>
             if App.isRouteGroupName entry
                && isDirectory vfs (dirPath +:+ "/" +:+ entry)
             then findRoute (dirPath +:+ "/" +:+ entry)
             else None)
          entries
    | None => None
    end.

(** The inner [tryPath] of [resolveAppRouteHandlerDynamic]. *)
Fixpoint tryPath (dirPath : string) (remainingSegments : list string)
  : option string :=
  match remainingSegments with
  | [] => tryTerminal dirPath
  | current :: rest =>
      let exactPath := dirPath +:+ "/" +:+ current in
      let exact :=
        if isDirectory vfs exactPath then tryPath exactPath rest else None in
      match exact with
      | Some result => Some result
      | None =>
          match readdirSync vfs dirPath with
          | Some entries =>
              Js.firstSome
                (fun entry =>
                   Js.orElse
                     (if App.isRouteGroupName entry
                         && isDirectory vfs (dirPath +:+ "/" +:+ entry)
                      then
                        let groupExact := dirPath +:+ "/" +:+ entry +:+ "/" +:+ current in
                        if isDirectory vfs groupExact
                        then tryPath groupExact rest
                        else None
                      else None)
                     (Js.orElse
                        (if Js.startsWith "[" entry && Js.endsWith "]" entry
                            && negb (Js.includes "." entry)
                         then
                           let dynamicPath := dirPath +:+ "/" +:+ entry in
                           if isDirectory vfs dynamicPath
                           then tryPath dynamicPath rest
                           else None
                         else None)
                        (if Js.startsWith "[..." entry && Js.endsWith "]" entry
                         then
                           let dynamicPath := dirPath +:+ "/" +:+ entry in
                           if isDirectory vfs dynamicPath
                           then tryTerminal dynamicPath
                           else None
                         else None)))
                entries
          | None => None
          end
      end
  end.

Definition resolveAppRouteHandlerDynamic (segments : list string) : option string :=
  tryPath appDir segments.

(** The directory the segments name, built without looking at the file
    system. *)
Definition joinSegments (segments : list string) : string :=
  List.fold_left (fun dirPath segment => dirPath +:+ "/" +:+ segment) segments appDir.

Definition resolveAppRouteHandler (pathname : string) : option string :=
  let segments := if String.eqb pathname "/" then [] else Js.segmentsOf pathname in
  Js.orElse (findRoute (joinSegments segments))
    (resolveAppRouteHandlerDynamic segments).

(** [hasAppRouter]: the test behind the choice of the router. *)
Definition hasAppRouter : bool :=
  if negb (exists_ vfs appDir) then false
  else if existsb (exists_ vfs)
            (List.map (fun ext => appDir +:+ "/page" +:+ ext) extensions)
  then true
  else if match readdirSync vfs appDir with
          | Some entries =>
              existsb
                (fun entry =>
                   App.isRouteGroupName entry
                   && isDirectory vfs (appDir +:+ "/" +:+ entry)
                   && existsb (exists_ vfs)
                        (List.map
                           (fun ext => appDir +:+ "/" +:+ entry +:+ "/page" +:+ ext)
                           extensions))
                entries
          | None => false
          end
  then true
  else existsb (exists_ vfs)
         (List.map (fun ext => appDir +:+ "/layout" +:+ ext) extensions).

End Resolver.
End RouteFiles.

(** ** Files served without routing *)

Module Files.

(** [/\.(jsx|tsx|ts)$/.test(path)] *)
Definition needsTransform (path : string) : bool :=
  Js.endsWith ".jsx" path || Js.endsWith ".tsx" path || Js.endsWith ".ts" path.

(** A word character, [\w]. *)
Definition isWordChar (c : ascii) : bool :=
  let n := nat_of_ascii c in
  ((48 <=? n) && (n <=? 57))%nat || ((65 <=? n) && (n <=? 90))%nat
  || ((97 <=? n) && (n <=? 122))%nat || (n =? 95)%nat.

Fixpoint allWordChars (s : string) : bool :=
  match s with
  | EmptyString => true
  | String c s' => isWordChar c && allWordChars s'
  end.

(** [/\.\w+$/.test(s)]: some suffix of [s] is a dot and word characters. *)
Fixpoint hasExtension (s : string) : bool :=
  match s with
  | EmptyString => false
  | String c s' =>
      (Ascii.eqb c "." && Js.truthy s' && allWordChars s') || hasExtension s'
  end.

(** The extensions [resolveFileWithExtension] tries, in order. *)
Definition importExtensions : list string := [".tsx"; ".ts"; ".jsx"; ".js"].

Definition resolveFileWithExtension (vfs : VirtualFS) (pathname : string)
  : option string :=
  if hasExtension pathname && exists_ vfs pathname then Some pathname
  else
    Js.orElse
      (List.find (exists_ vfs) (List.map (fun ext => pathname +:+ ext) importExtensions))
      (List.find (exists_ vfs)
         (List.map (fun ext => pathname +:+ "/index" +:+ ext) importExtensions)).

(** [resolvePath], with the server's [root]. *)
Definition resolvePath (root urlPath : string) : string :=
  let path := default "" (head (Js.split "#" (default "" (head (Js.split "?" urlPath))))) in
  let path := if Js.startsWith "/" path then path else "/" +:+ path in
  if negb (String.eqb root "/") then root +:+ path else path.

(** [s.replace(/\.js$/, '')] *)
Definition dropJsSuffix (s : string) : string :=
  if Js.endsWith ".js" s then String.substring 0 (String.length s - 3) s else s.

End Files.

(** ** Configuration: [loadConfigStringValue] and [generateEnvScript] *)

Module Config.
Section Load.

(** [this.vfs.existsSync], and [parseNextConfigValue] of next-config-parser,
    which is outside this file: the outer [None] is a thrown error, the
    inner one a missing value. *)
Variable existsSync : string -> bool.
Variable parseNextConfigValue : string -> string -> bool -> option (option string).

(** Leading slash added, one trailing slash removed. *)
Definition normalize (value : string) : string :=
  let val := if Js.startsWith "/" value then value else "/" +:+ value in
  if Js.endsWith "/" val then Js.slice 0 1 val else val.

Definition configFiles : list (string * bool) :=
  [("/next.config.ts", true); ("/next.config.js", false); ("/next.config.mjs", false)].

(** The loop over the config files; a thrown error ends it with [''] . *)
Fixpoint scanConfigFiles (vfs : VirtualFS) (key : string) (files : list (string * bool))
  : string :=
  match files with
  | [] => ""
  | (path, isTs) :: files' =>
      if negb (existsSync path) then scanConfigFiles vfs key files'
      else
        match readFileSync vfs path with
        | None => ""
        | Some content =>
            match parseNextConfigValue content key isTs with
            | None => ""
            | Some (Some value) =>
                if Js.truthy value then normalize value
                else scanConfigFiles vfs key files'
            | Some None => scanConfigFiles vfs key files'
            end
        end
  end.

Definition loadConfigStringValue (vfs : VirtualFS) (key : string)
    (optionValue : option string) : string :=
  match optionValue with
  | Some value => normalize value
  | None => scanConfigFiles vfs key configFiles
  end.

End Load.

Section EnvScript.

(** [JSON.stringify] on the object of public variables and on a string. An
    object of variables is the list of its entries, in the order
    [Object.entries] and [JSON.stringify] enumerate them. *)
Variable stringifyEnv : list (string * string) -> string.
Variable quote : string -> string.

(** The variables copied into [publicEnvVars]. *)
Definition publicEnvVars (env : list (string * string)) : list (string * string) :=
  List.filter (fun kv => Js.startsWith "NEXT_PUBLIC_" (fst kv)) env.

Definition newline : string := String "010" "".

Definition generateEnvScript (env : list (string * string)) (basePath : string)
  : string :=
  "<script>" +:+ newline
  +:+ "  // Environment variables (injected by NextDevServer)" +:+ newline
  +:+ "  window.process = window.process || {};" +:+ newline
  +:+ "  window.process.env = window.process.env || {};" +:+ newline
  +:+ "  Object.assign(window.process.env, " +:+ stringifyEnv (publicEnvVars env)
  +:+ ");" +:+ newline
  +:+ "  // Next.js config values" +:+ newline
  +:+ "  window.__NEXT_BASE_PATH__ = " +:+ quote basePath +:+ ";" +:+ newline
  +:+ "</script>".

End EnvScript.
End Config.

(** ** Modules fetched by client-side navigation *)

Module Components.
Section Serve.

Variable simpleHash : string -> string.
Variable transformCode : VirtualFS -> string -> string -> string + string.
Variable readError : string -> string.
Variable quote : string -> string.
(** [notFound] of the [DevServer] base class. *)
Variable notFound : string -> ResponseData.

(** [servePageComponent]: [/_next/pages/about.js] is the page of [/about]. *)
Definition servePageComponent (vfs : VirtualFS) (pagesDir pathname : string)
    (st : Transform.State) : ResponseData * Transform.State :=
  let route := Files.dropJsSuffix (Js.replaceFirst "/_next/pages" pathname) in
  match Pages.resolvePageFile vfs pagesDir route with
  | None => (notFound pathname, st)
  | Some pageFile =>
      Transform.transformAndServe simpleHash transformCode readError quote
        vfs pageFile st
  end.

(** The extensions [serveAppComponent] tries, in order. *)
Definition componentExtensions : list string := [".tsx"; ".jsx"; ".ts"; ".js"].

(** The file [serveAppComponent] serves for a path, if any. *)
Definition appComponentFile (vfs : VirtualFS) (pathname : string) : option string :=
  let rawFilePath := Js.replaceFirst "/_next/app" pathname in
  if exists_ vfs rawFilePath && negb (isDirectory vfs rawFilePath) then Some rawFilePath
  else
    let filePath := Files.dropJsSuffix rawFilePath in
    List.find (exists_ vfs) (List.map (fun ext => filePath +:+ ext) componentExtensions).

Definition serveAppComponent (vfs : VirtualFS) (pathname : string)
    (st : Transform.State) : ResponseData * Transform.State :=
  match appComponentFile vfs pathname with
  | Some file =>
      Transform.transformAndServe simpleHash transformCode readError quote vfs file st
  | None => (notFound pathname, st)
  end.

End Serve.
End Components.

(** ** The dispatcher of requests *)

Module Dispatch.

(** The server's settings [handleRequest] reads. *)
Record Settings : Type := {
  publicDir : string;
  appDir : string;
  assetPrefix : string;
  basePath : string;
  useAppRouter : bool;
}.

(** The call [handleRequest] returns the result of. *)
Inductive Target : Type :=
  | serveNextShim (pathname : string)
  | serveRouteInfo (pathname : string)
  | servePageComponent (pathname : string)
  | serveAppComponent (pathname : string)
  | serveStaticAsset (pathname : string)
  | handleAppRouteHandler (pathname routeFile search : string)
  | handleApiRoute (pathname : string)
  | serveFile (filePath : string)
  | transformAndServe (filePath urlPath : string)
  | handlePageRoute (pathname search : string).

Section Request.

Variable formDecode : string -> string.
Variable vfs : VirtualFS.
Variable settings : Settings.

(** [urlObj.searchParams.get(name)] *)
Definition searchParam (u : Url.t) (name : string) : option string :=
  snd <$> List.find (fun kv => String.eqb (fst kv) name) (Url.searchParams formDecode u).

(** [handleRequest], up to the handler it hands the request to. *)
Definition handleRequest (url : string) : Target :=
  let urlObj := Url.parse url in
  let pathname :=
    MockRequest.requestPathname (assetPrefix settings) (basePath settings) url in
  if Js.startsWith "/_next/shims/" pathname then serveNextShim pathname
  else if String.eqb pathname "/_next/route-info" then
    serveRouteInfo (MockRequest.orSlash (default "" (searchParam urlObj "pathname")))
  else if Js.startsWith "/_next/pages/" pathname then servePageComponent pathname
  else if Js.startsWith "/_next/app/" pathname then serveAppComponent pathname
  else if Js.startsWith "/_next/static/" pathname then serveStaticAsset pathname
  else
    match
      if useAppRouter settings
      then RouteFiles.resolveAppRouteHandler vfs (appDir settings) pathname
      else None
    with
    | Some appRouteFile =>
        handleAppRouteHandler pathname appRouteFile (Url.search urlObj)
    | None =>
        if Js.startsWith "/api/" pathname then handleApiRoute pathname
        else
          let publicPath := publicDir settings +:+ pathname in
          if exists_ vfs publicPath && negb (isDirectory vfs publicPath)
          then serveFile publicPath
          else if Files.needsTransform pathname && exists_ vfs pathname
          then transformAndServe pathname pathname
          else
            match Files.resolveFileWithExtension vfs pathname with
            | Some resolvedFile =>
                if Files.needsTransform resolvedFile
                then transformAndServe resolvedFile pathname
                else serveFile resolvedFile
            | None =>
                if exists_ vfs pathname && negb (isDirectory vfs pathname)
                then serveFile pathname
                else handlePageRoute pathname (Url.search urlObj)
            end
    end.

End Request.
End Dispatch.

(** * Sample inputs *)

Module Samples.

(** A Pages project whose literal directory [about] has an index page, next
    to a dynamic sibling. *)
Definition pagesLiteral : VirtualFS :=
  MemFS.make [("/pages/index.jsx", "home");
              ("/pages/about/index.jsx", "about");
              ("/pages/[slug]/index.jsx", "slug")].

(** The same project, where [about] only holds a page for [/about/team]. *)
Definition pagesBacktrack : VirtualFS :=
  MemFS.make [("/pages/index.jsx", "home");
              ("/pages/about/team.jsx", "team");
              ("/pages/[slug]/index.jsx", "slug")].

(** An App project with grouped pages and nested layouts. *)
Definition appGrouped : VirtualFS :=
  MemFS.make [("/app/layout.tsx", "root");
              ("/app/(marketing)/layout.tsx", "marketing");
              ("/app/(marketing)/page.tsx", "home");
              ("/app/(marketing)/about/page.tsx", "about");
              ("/app/blog/layout.tsx", "blog");
              ("/app/blog/[...slug]/page.tsx", "post")].

(** The same pages without the group. *)
Definition appPlain : VirtualFS :=
  MemFS.make [("/app/layout.tsx", "root");
              ("/app/page.tsx", "home");
              ("/app/about/page.tsx", "about")].


(** Three nested levels, a layout at each. *)
Definition appNested : VirtualFS :=
  MemFS.make [("/app/layout.tsx", "root");
              ("/app/shop/layout.tsx", "level 1");
              ("/app/shop/cart/layout.tsx", "level 2");
              ("/app/shop/cart/page.tsx", "cart")].

(** Stand-ins for the collaborators of [transformAndServe]: a hash without
    collisions, a compiler that marks its input, and the message of a
    read error. *)
Definition idHash (content : string) : string := content.
Definition markCompiled (_ : VirtualFS) (content _ : string) : string + string :=
  inl ("/*compiled*/" +:+ content).
Definition enoent (path : string) : string := "ENOENT: " +:+ path.
Definition quoted (s : string) : string := String "034" s +:+ String "034" "".

Definition serve : VirtualFS -> string -> Transform.State -> ResponseData * Transform.State :=
  Transform.transformAndServe idHash markCompiled enoent quoted.

(** One source file, in two versions. *)
Definition indexA : VirtualFS := MemFS.make [("/pages/index.jsx", "A")].
Definition indexB : VirtualFS := MemFS.make [("/pages/index.jsx", "B")].

(** A file system in which every path is a file that holds its own name. *)
Definition selfFS : VirtualFS :=
  {| exists_ := fun _ => true;
     isDirectory := fun _ => false;
     readdirSync := fun _ => None;
     readFileSync := fun p => Some p |}.

Definition source (n : nat) : string := "/src/" +:+ stringOfNat n +:+ ".tsx".

(** The server after requests for [/src/0.tsx] ... [/src/499.tsx]. *)
Definition fullCache : Transform.State :=
  List.fold_left (fun st n => snd (serve selfFS (source n) st)) (List.seq 0 500)
    Transform.initial.

(** A route file that exports [GET] only, with stand-ins for the platform's
    [Request] and for the transform and evaluation of the module. *)
Definition getOnly : RouteHandler.Exports unit :=
  {[ "GET" := RouteHandler.ExportFunction unit
                (fun _ _ => RouteHandler.ReturnsObject "{}") ]}.

Definition itemsRoute : VirtualFS :=
  MemFS.make [("/app/api/items/route.ts", "export function GET() {}")].

Definition handleItems (method : string) : ResponseData :=
  RouteHandler.handleAppRouteHandler unit
    (fun _ _ _ _ => inl tt) (fun code _ => inl code) (fun _ => inl getOnly)
    enoent quoted
    itemsRoute "/app" method "/api/items" ∅ None "/app/api/items/route.ts" None.

(** JSON values given by their text, for the calls on a mock response. *)
Definition jsonText (data : string) : string := data.

(** A Pages project with one API route, and the request the dispatcher
    builds for it, with stand-ins for [JSON.parse], [decodeURIComponent],
    the decoding of query strings and the transform of the handler. *)
Definition helloApi : VirtualFS :=
  MemFS.make [("/pages/api/hello.js", "export default function handler() {}")].

Definition apiRequest (url : string) : option (MockRequest.t string) :=
  MockRequest.handleRequest_apiRequest string Some Some (fun s => s)
    (fun code _ => inl code) helloApi "/pages" "" "" "GET" url ∅ None.

(** An App project whose API lives in route files: a literal route, a
    dynamic one inside a route group, and no page at all. *)
Definition apiOnly : VirtualFS :=
  MemFS.make [("/app/api/items/route.ts", "export function GET() {}");
              ("/app/(v1)/api/users/[id]/route.ts", "export function GET() {}")].

(** A compiler that rejects everything. *)
Definition rejectAll (_ : VirtualFS) (_ _ : string) : string + string :=
  inr "Unexpected token".


(** A stand-in for [decodeURIComponent] that knows no escape: it returns a
    text without ['%'] as it is and rejects any other. *)
Definition decodePlain (s : string) : option string :=
  if Js.includes "%" s then None else Some s.


(** A route module whose [GET] reports whether it was given an [id]. *)
Definition reportId : RouteHandler.Exports unit :=
  {[ "GET" := RouteHandler.ExportFunction unit
                (fun _ params =>
                   RouteHandler.ReturnsObject
                     (match params !! "id" with
                      | Some _ => "{id}"
                      | None => "{}"
                      end)) ]}.


(** A Pages project with a public file under [api/], and its settings. *)
Definition publicApi : VirtualFS :=
  MemFS.make [("/public/api/data.json", "{}"); ("/pages/index.jsx", "export default 1")].

Definition pagesOnly : Dispatch.Settings :=
  {| Dispatch.publicDir := "/public";
     Dispatch.appDir := "/app";
     Dispatch.assetPrefix := "";
     Dispatch.basePath := "";
     Dispatch.useAppRouter := false |}.

(** A [Request] constructor that keeps the body it is given. *)
Definition keepBody (_ _ : string) (_ : gmap string string) (body : option string)
  : option string + string := inl body.

(** A route module whose [GET] returns the body of the request. *)
Definition echoBody : RouteHandler.Exports (option string) :=
  {[ "GET" := RouteHandler.ExportFunction (option string)
                (fun request _ => RouteHandler.ReturnsOther (default "" request)) ]}.

End Samples.

(** * Vocabulary of the statements *)

Module Spec.





(** Every key of the cache is a non-empty path. *)
Definition keysNonEmpty (m : TransformCache.t) : Prop :=
  List.Forall (fun k => Js.truthy k = true) (TransformCache.keys m).

(** The text a call hands to [onChunk] on the streaming response. *)
Definition chunkOf {Json : Type} (stringify : Json -> string) (c : ResCall.t Json)
  : list string :=
  match c with
  | ResCall.write chunk => [chunk]
  | ResCall.json data => [stringify data]
  | ResCall.send (ResCall.SendString text) => [text]
  | ResCall.send (ResCall.SendObject o) => [stringify o]
  | ResCall.end_ (Some d) => if Js.truthy d then [d] else []
  | _ => []
  end.

Definition chunksOf {Json : Type} (stringify : Json -> string)
    (calls : list (ResCall.t Json)) : list string :=
  List.flat_map (chunkOf stringify) calls.

(** The calls that commit the response: [write] and the terminal methods. *)
Definition startsResponse {Json : Type} (c : ResCall.t Json) : bool :=
  ResCall.isWrite c || ResCall.isTerminal c.

(** No character of [s] satisfies [stop]. *)
Fixpoint noneOf (stop : ascii -> bool) (s : string) : bool :=
  match s with
  | EmptyString => true
  | String c s' => negb (stop c) && noneOf stop s'
  end.

(** A parameter value taken from the URL: one of the segments, or a
    non-empty tail of them. *)
Definition paramFrom (segments : list string) (v : ParamValue) : Prop :=
  match v with
  | ParamString s => In s segments
  | ParamList l => l <> [] /\ l `suffix_of` segments
  end.

(** The bindings of [after] are those of [before], or come from the
    segments. *)
Definition paramsFrom (segments : list string)
    (before after : gmap string ParamValue) : Prop :=
  forall k v, after !! k = Some v -> before !! k = Some v \/ paramFrom segments v.

(** [route] was built for a page found in a directory under [dir], with
    parameters that extend [before] from the segments. *)
Definition Resolved (vfs : VirtualFS) (appDir dir : string) (segments : list string)
    (before : gmap string ParamValue) (route : AppRoute) : Prop :=
  exists pageDir layouts',
    App.findPage vfs pageDir = Some (page route)
    /\ route = App.routeAt vfs appDir pageDir (page route) layouts' (params route)
    /\ Js.startsWith dir pageDir = true
    /\ paramsFrom segments before (params route).

(** The chunks handed to [onChunk] in a trace, in order. *)
Definition chunksIn (t : list StreamingResponse.Event) : list string :=
  omap (fun e => match e with
                 | StreamingResponse.onChunk chunk => Some chunk
                 | _ => None
                 end) t.

(** The chunks, one after the other. *)
Fixpoint joinChunks (chunks : list string) : string :=
  match chunks with
  | [] => ""
  | chunk :: chunks' => chunk +:+ joinChunks chunks'
  end.

(** [json] and [send], which assign the body of the buffered response. *)
Definition replacesBody {Json : Type} (c : ResCall.t Json) : bool :=
  match c with
  | ResCall.json _ | ResCall.send _ => true
  | _ => false
  end.

(** A cookie name or value: not empty, and free of [';'], ['='] and white
    space. *)
Definition cookieToken (s : string) : bool :=
  Js.truthy s
  && noneOf (fun c => Ascii.eqb c ";" || Ascii.eqb c "=" || MockRequest.isSpace c) s.

(** One cookie as it is written in a [Cookie] header. *)
Definition pieceOf (cookie : string * string) : string :=
  fst cookie +:+ "=" +:+ snd cookie.

(** The [Cookie] header a client sends for a list of cookies. *)
Fixpoint cookieHeader (cookies : list (string * string)) : string :=
  match cookies with
  | [] => ""
  | (name, value) :: rest =>
      match rest with
      | [] => name +:+ "=" +:+ value
      | _ :: _ => name +:+ "=" +:+ value +:+ "; " +:+ cookieHeader rest
      end
  end.




(** An exported value whose function, if it is one, is called without route
    parameters. *)
Definition withoutParams {Request : Type} (v : RouteHandler.ExportValue Request)
  : RouteHandler.ExportValue Request :=
  match v with
  | RouteHandler.ExportFunction _ h => RouteHandler.ExportFunction _ (fun request _ => h request ∅)
  | RouteHandler.ExportOther _ truthy => RouteHandler.ExportOther _ truthy
  end.

(** Running a module, with every exported function called without route
    parameters. *)
Definition evalWithoutParams {Request : Type}
    (evalModule : string -> RouteHandler.Exports Request + string) (code : string)
  : RouteHandler.Exports Request + string :=
  match evalModule code with
  | inl exports => inl (withoutParams <$> exports)
  | inr message => inr message
  end.

End Spec.

(** * Properties *)

(** ** Loops with early return *)

Lemma firstSome_Some {A B : Type} (f : A -> option B) (l : list A) (r : B) :
  Js.firstSome f l = Some r -> exists x, In x l /\ f x = Some r.
Proof.
  induction l as [|x l IH]; simpl; [discriminate|].
  destruct (f x) as [y|] eqn:Hx.
  - intros [= <-]. exists x. split; [now left | exact Hx].
  - intros H. destruct (IH H) as (x' & Hin & Hf). exists x'. split; [now right | exact Hf].
Qed.


Lemma firstSome_first {A B : Type} (f : A -> option B) (pre post : list A) (x : A) (r : B) :
  (forall y, In y pre -> f y = None) -> f x = Some r ->
  Js.firstSome f (pre ++ x :: post) = Some r.
Proof.
  induction pre as [|y pre IH]; simpl; intros Hpre Hx.
  - now rewrite Hx.
  - rewrite (Hpre y) by now left. apply IH; [|exact Hx].
    intros z Hz. apply Hpre. now right.
Qed.


(** ** Pages router *)





(** The two projects through [resolvePageFile]: [/about] goes to the literal
    page when there is one, and to the dynamic sibling otherwise. *)
Example resolvePageFile_literal :
  Pages.resolvePageFile Samples.pagesLiteral "/pages" "/about"
  = Some "/pages/about/index.jsx".
Proof. vm_compute. reflexivity. Qed.

Example resolvePageFile_backtrack :
  Pages.resolvePageFile Samples.pagesBacktrack "/pages" "/about"
  = Some "/pages/[slug]/index.jsx".
Proof. vm_compute. reflexivity. Qed.

Example resolvePageFile_deeper_literal :
  Pages.resolvePageFile Samples.pagesBacktrack "/pages" "/about/team"
  = Some "/pages/about/team.jsx".
Proof. vm_compute. reflexivity. Qed.

(** ** App router: route groups *)

Lemma App_tryPath_nil vfs appDir dirPath layouts params :
  App.tryPath vfs appDir dirPath [] layouts params
  = App.tryTerminal vfs appDir dirPath layouts params.
Proof. reflexivity. Qed.





(** The grouped and the plain project, through [resolveAppRoute]. *)
Example resolveAppRoute_grouped_about :
  (fun r => (page r, layouts r, params r))
    <$> App.resolveAppRoute Samples.appGrouped "/app" "/about"
  = Some ("/app/(marketing)/about/page.tsx",
          ["/app/layout.tsx"; "/app/(marketing)/layout.tsx"], ∅).
Proof. vm_compute. reflexivity. Qed.

Example resolveAppRoute_plain_about :
  (fun r => (page r, layouts r, params r))
    <$> App.resolveAppRoute Samples.appPlain "/app" "/about"
  = Some ("/app/about/page.tsx", ["/app/layout.tsx"], ∅).
Proof. vm_compute. reflexivity. Qed.

Example resolveAppRoute_grouped_root :
  (fun r => (page r, layouts r, params r))
    <$> App.resolveAppRoute Samples.appGrouped "/app" "/"
  = Some ("/app/(marketing)/page.tsx",
          ["/app/layout.tsx"; "/app/(marketing)/layout.tsx"], ∅).
Proof. vm_compute. reflexivity. Qed.

(** ** App router: the walk towards the root terminates *)

Lemma substring_0_length m s : String.length (String.substring 0 m s) <= m.
Proof.
  revert s. induction m as [|m IH]; intros [|c s]; simpl; try lia.
  specialize (IH s). lia.
Qed.

Lemma dropLastSegment_shorter s :
  Js.dropLastSegment s = s
  \/ String.length (Js.dropLastSegment s) < String.length s.
Proof.
  unfold Js.dropLastSegment.
  destruct (Js.lastSlash s) as [i|]; [|now left].
  destruct (S i <? String.length s)%nat eqn:Hi; [|now left].
  right. apply Nat.ltb_lt in Hi.
  pose proof (substring_0_length i s). lia.
Qed.

(** [findNearestConventionFile] never runs out of iterations: more fuel than
    the length of the directory path changes nothing. *)
Lemma findNearestLoop_enough vfs appDir name fuel :
  forall current extra,
    String.length current < fuel ->
    App.findNearestLoop vfs appDir (fuel + extra) current name
    = App.findNearestLoop vfs appDir fuel current name.
Proof.
  induction fuel as [|fuel IH]; intros current extra Hlen; [lia|].
  simpl. destruct (Js.startsWith appDir current); [|reflexivity].
  destruct (App.findConventionFile vfs current name); [reflexivity|].
  destruct (String.eqb (Js.dropLastSegment current) current) eqn:Hsame; [reflexivity|].
  apply IH. apply String.eqb_neq in Hsame.
  destruct (dropLastSegment_shorter current) as [Heq|Hlt]; [contradiction|lia].
Qed.

(** ** App router: the layouts of a route *)















(** Three nested levels with a layout each. *)
Example resolveAppRoute_nested_layouts :
  layouts <$> App.resolveAppRoute Samples.appNested "/app" "/shop/cart"
  = Some ["/app/layout.tsx"; "/app/shop/layout.tsx"; "/app/shop/cart/layout.tsx"].
Proof. vm_compute. reflexivity. Qed.


(** ** The transform cache *)

Lemma cache_get_set_eq k v m :
  TransformCache.get k (TransformCache.set k v m) = Some v.
Proof.
  unfold TransformCache.get.
  induction m as [|[k' v'] m IH]; simpl.
  - now rewrite String.eqb_refl.
  - destruct (String.eqb k' k) eqn:E; simpl.
    + now rewrite String.eqb_refl.
    + now rewrite E.
Qed.

Lemma cache_has_get k m :
  TransformCache.has k m = false <-> TransformCache.get k m = None.
Proof.
  unfold TransformCache.has, TransformCache.get.
  induction m as [|[k' v'] m IH]; simpl; [tauto|].
  destruct (String.eqb k' k); simpl; [split; discriminate | exact IH].
Qed.

Lemma cache_set_present k v m :
  TransformCache.has k m = true ->
  TransformCache.size (TransformCache.set k v m) = TransformCache.size m
  /\ TransformCache.keys (TransformCache.set k v m) = TransformCache.keys m.
Proof.
  unfold TransformCache.has, TransformCache.size, TransformCache.keys.
  induction m as [|[k' v'] m IH]; simpl; [discriminate|].
  destruct (String.eqb k' k) eqn:E; simpl.
  - intros _. apply String.eqb_eq in E as ->. auto.
  - intros H. destruct (IH H) as [-> ->]. auto.
Qed.

Lemma cache_set_absent k v m :
  TransformCache.has k m = false ->
  TransformCache.set k v m = m ++ [(k, v)].
Proof.
  unfold TransformCache.has.
  induction m as [|[k' v'] m IH]; simpl; [reflexivity|].
  destruct (String.eqb k' k); simpl; [discriminate|].
  intros H. now rewrite IH.
Qed.

Lemma cache_get_last k v m :
  TransformCache.has k m = false ->
  TransformCache.get k (m ++ [(k, v)]) = Some v.
Proof.
  intros H. rewrite <- (cache_set_absent k v m H). apply cache_get_set_eq.
Qed.

Lemma cache_has_tail k kv m :
  TransformCache.has k (kv :: m) = false -> TransformCache.has k m = false.
Proof.
  unfold TransformCache.has. simpl. intros H.
  apply orb_false_iff in H. tauto.
Qed.

Lemma cache_delete_head k v m :
  TransformCache.delete k ((k, v) :: m) = m.
Proof. simpl. now rewrite String.eqb_refl. Qed.

Section TransformFacts.

Variable simpleHash : string -> string.
Variable transformCode : VirtualFS -> string -> string -> string + string.
Variable readError : string -> string.
Variable quote : string -> string.

Local Abbreviation serve :=
  (Transform.transformAndServe simpleHash transformCode readError quote).

(** What [evict] does after a [set]: nothing up to 500 entries; beyond,
    the first key goes, unless it is the empty string. *)
Lemma evict_small m :
  TransformCache.size m <= 500 -> Transform.evict m = m.
Proof.
  intros H. unfold Transform.evict.
  destruct (500 <? TransformCache.size m)%nat eqn:E; [|reflexivity].
  apply Nat.ltb_lt in E. lia.
Qed.

Lemma evict_large k v m :
  500 < TransformCache.size ((k, v) :: m) -> Js.truthy k = true ->
  Transform.evict ((k, v) :: m) = m.
Proof.
  intros H Hk. unfold Transform.evict.
  apply Nat.ltb_lt in H. rewrite H.
  change (TransformCache.firstKey ((k, v) :: m)) with (Some k). cbv beta iota.
  rewrite Hk. apply cache_delete_head.
Qed.

(** The entry just stored survives the eviction. *)
Lemma get_after_store p e m :
  TransformCache.size m <= 500 ->
  TransformCache.get p (Transform.evict (TransformCache.set p e m)) = Some e.
Proof.
  intros Hsize.
  destruct (TransformCache.has p m) eqn:Hhas.
  - rewrite evict_small; [apply cache_get_set_eq|].
    destruct (cache_set_present p e m Hhas) as [-> _]. exact Hsize.
  - rewrite (cache_set_absent p e m Hhas).
    unfold Transform.evict.
    destruct (500 <? _)%nat eqn:E; [|now apply cache_get_last].
    apply Nat.ltb_lt in E.
    destruct m as [|[k v] m]; [simpl in E; lia|].
    change (((k, v) :: m) ++ [(p, e)]) with ((k, v) :: (m ++ [(p, e)])).
    change (TransformCache.firstKey ((k, v) :: (m ++ [(p, e)]))) with (Some k).
    cbv beta iota.
    destruct (Js.truthy k).
    * rewrite cache_delete_head. apply cache_get_last.
      eapply cache_has_tail, Hhas.
    * change ((k, v) :: (m ++ [(p, e)])) with (((k, v) :: m) ++ [(p, e)]).
      now apply cache_get_last.
Qed.

Lemma serve_hit vfs filePath content entry st :
  readFileSync vfs filePath = Some content ->
  TransformCache.get filePath (Transform.transformCache st) = Some entry ->
  TransformCache.hash entry = simpleHash content ->
  serve vfs filePath st
  = (Transform.hitResponse (TransformCache.code entry), st).
Proof.
  intros Hread Hget Hhash. unfold Transform.transformAndServe.
  rewrite Hread, Hget, Hhash, String.eqb_refl. reflexivity.
Qed.

Lemma serve_miss vfs filePath content st :
  readFileSync vfs filePath = Some content ->
  (forall entry,
      TransformCache.get filePath (Transform.transformCache st) = Some entry ->
      TransformCache.hash entry <> simpleHash content) ->
  serve vfs filePath st
  = let calls := Transform.transformCalls st ++ [(content, filePath)] in
    match transformCode vfs content filePath with
    | inr message =>
        (Transform.errorResponse quote message,
         {| Transform.transformCache := Transform.transformCache st;
            Transform.transformCalls := calls |})
    | inl transformed =>
        (Transform.missResponse transformed,
         {| Transform.transformCache :=
              Transform.evict
                (TransformCache.set filePath
                   {| TransformCache.code := transformed;
                      TransformCache.hash := simpleHash content |}
                   (Transform.transformCache st));
            Transform.transformCalls := calls |})
    end.
Proof.
  intros Hread Hstale. unfold Transform.transformAndServe. rewrite Hread.
  destruct (TransformCache.get filePath (Transform.transformCache st)) as [entry|] eqn:Hget.
  - specialize (Hstale entry eq_refl).
    apply String.eqb_neq in Hstale. rewrite Hstale. reflexivity.
  - reflexivity.
Qed.

Lemma serve_miss_calls vfs filePath content st :
  readFileSync vfs filePath = Some content ->
  (forall entry,
      TransformCache.get filePath (Transform.transformCache st) = Some entry ->
      TransformCache.hash entry <> simpleHash content) ->
  Transform.transformCalls (snd (serve vfs filePath st))
  = Transform.transformCalls st ++ [(content, filePath)].
Proof.
  intros Hread Hstale. rewrite (serve_miss _ _ _ _ Hread Hstale). cbv zeta.
  destruct (transformCode vfs content filePath); reflexivity.
Qed.

(** Two requests in a row for one path, the first of which misses and
    compiles. *)
Lemma serve_then_serve
    (vfs : VirtualFS) (filePath content transformed : string) (st : Transform.State)
    (Hread : readFileSync vfs filePath = Some content)
    (Hcompile : transformCode vfs content filePath = inl transformed)
    (Hsize : TransformCache.size (Transform.transformCache st) <= 500)
    (Hmiss : forall entry,
        TransformCache.get filePath (Transform.transformCache st) = Some entry ->
        TransformCache.hash entry <> simpleHash content) :
  let st1 := snd (serve vfs filePath st) in
  Transform.transformCalls st1 = Transform.transformCalls st ++ [(content, filePath)]
  /\ (forall vfs2,
        readFileSync vfs2 filePath = Some content ->
        serve vfs2 filePath st1 = (Transform.hitResponse transformed, st1))
  /\ (forall vfs2 content2,
        readFileSync vfs2 filePath = Some content2 ->
        simpleHash content2 <> simpleHash content ->
        Transform.transformCalls (snd (serve vfs2 filePath st1))
        = Transform.transformCalls st1 ++ [(content2, filePath)]).
Proof.
  intros st1.
  assert (TransformCache.get filePath (Transform.transformCache st1)
          = Some {| TransformCache.code := transformed;
                    TransformCache.hash := simpleHash content |}) as Hstored.
  { subst st1. rewrite (serve_miss _ _ _ _ Hread Hmiss). cbv zeta.
    rewrite Hcompile. simpl. now apply get_after_store. }
  split; [|split].
  - subst st1. now apply serve_miss_calls.
  - intros vfs2 Hread2.
    now rewrite (serve_hit _ _ _ _ _ Hread2 Hstored eq_refl).
  - intros vfs2 content2 Hread2 Hhash.
    apply serve_miss_calls; [exact Hread2|].
    intros entry Hget. rewrite Hstored in Hget. injection Hget as <-.
    simpl. congruence.
Qed.


End TransformFacts.


Section TransformCacheFacts.

Variable simpleHash : string -> string.
Variable transformCode : VirtualFS -> string -> string -> string + string.
Variable readError : string -> string.
Variable quote : string -> string.

Local Abbreviation serve :=
  (Transform.transformAndServe simpleHash transformCode readError quote).

(** C3, as the code has it. Whether a request is served from the cache
    depends on the stored hash and the hash of the content read now, and on
    nothing else: with a stored entry whose hash is that of the current
    content the request is a hit that leaves the state as it is, so a file
    reverted to the content its stored entry was compiled from is a hit;
    without such an entry the transform is invoked. The cache keeps one
    entry per path: once a request has compiled content with another hash
    for the path, the request that follows a revert to the earlier content
    invokes the transform again. *)
Theorem transform_cache_content_addressed :
  (forall vfs filePath content st,
      readFileSync vfs filePath = Some content ->
      (forall entry,
          TransformCache.get filePath (Transform.transformCache st) = Some entry ->
          TransformCache.hash entry = simpleHash content ->
          serve vfs filePath st
          = (Transform.hitResponse (TransformCache.code entry), st))
      /\ ((forall entry,
             TransformCache.get filePath (Transform.transformCache st) = Some entry ->
             TransformCache.hash entry <> simpleHash content) ->
          Transform.transformCalls (snd (serve vfs filePath st))
          = Transform.transformCalls st ++ [(content, filePath)]))
  /\ (forall vfsA vfsB filePath contentA contentB compiledB entryA st,
      readFileSync vfsA filePath = Some contentA ->
      readFileSync vfsB filePath = Some contentB ->
      TransformCache.get filePath (Transform.transformCache st) = Some entryA ->
      TransformCache.hash entryA = simpleHash contentA ->
      TransformCache.size (Transform.transformCache st) <= 500 ->
      simpleHash contentB <> simpleHash contentA ->
      transformCode vfsB contentB filePath = inl compiledB ->
      let st1 := snd (serve vfsB filePath st) in
      Transform.transformCalls st1
      = Transform.transformCalls st ++ [(contentB, filePath)]
      /\ Transform.transformCalls (snd (serve vfsA filePath st1))
         = Transform.transformCalls st1 ++ [(contentA, filePath)]).
Proof.
  split.
  - intros vfs filePath content st Hread. split.
    + intros entry Hget Hhash. now apply serve_hit with (content := content).
    + now apply serve_miss_calls.
  - intros vfsA vfsB filePath contentA contentB compiledB entryA st
      HreadA HreadB Hget HhashA Hsize Hneq Hcompile st1.
    assert (forall entry,
               TransformCache.get filePath (Transform.transformCache st) = Some entry ->
               TransformCache.hash entry <> simpleHash contentB) as HstaleB.
    { intros entry Hentry. rewrite Hget in Hentry. injection Hentry as <-. congruence. }
    destruct (serve_then_serve simpleHash transformCode readError quote
                vfsB filePath contentB compiledB st HreadB Hcompile Hsize HstaleB)
      as (Hcalls & _ & Hchanged).
    split; [exact Hcalls|].
    apply (Hchanged vfsA contentA HreadA). congruence.
Qed.

Lemma cache_set_size_le k v m :
  TransformCache.size (TransformCache.set k v m) <= S (TransformCache.size m).
Proof.
  destruct (TransformCache.has k m) eqn:Hhas.
  - destruct (cache_set_present k v m Hhas) as [-> _]. lia.
  - rewrite (cache_set_absent k v m Hhas). unfold TransformCache.size.
    rewrite List.length_app. simpl. lia.
Qed.

Lemma cache_set_keysNonEmpty k v m :
  Js.truthy k = true -> Spec.keysNonEmpty m ->
  Spec.keysNonEmpty (TransformCache.set k v m).
Proof.
  intros Hk Hm. unfold Spec.keysNonEmpty in *.
  destruct (TransformCache.has k m) eqn:Hhas.
  - destruct (cache_set_present k v m Hhas) as [_ ->]. exact Hm.
  - rewrite (cache_set_absent k v m Hhas). unfold TransformCache.keys in *.
    rewrite List.map_app. apply List.Forall_app. split; [exact Hm|].
    constructor; [exact Hk | constructor].
Qed.

(** One request, seen from the cache. *)
Lemma serve_cache_step
    (vfs : VirtualFS) (filePath : string) (st : Transform.State)
    (Hpath : Js.truthy filePath = true)
    (Hkeys : Spec.keysNonEmpty (Transform.transformCache st))
    (Hsize : TransformCache.size (Transform.transformCache st) <= 500) :
  let cache' := Transform.transformCache (snd (serve vfs filePath st)) in
  TransformCache.size cache' <= 500
  /\ Spec.keysNonEmpty cache'
  /\ (cache' = Transform.transformCache st
      \/ exists entry,
          let stored := TransformCache.set filePath entry (Transform.transformCache st) in
          (TransformCache.size stored <= 500 /\ cache' = stored)
          \/ (TransformCache.size stored = 501
              /\ exists oldest, stored = oldest :: cache')).
Proof.
  intros cache'. subst cache'. unfold Transform.transformAndServe.
  destruct (readFileSync vfs filePath) as [content|]; [|simpl; auto].
  match goal with
  | |- context [match ?h with Some code => (Transform.hitResponse code, st) | None => _ end] =>
      destruct h as [code|]
  end; [simpl; auto|].
  destruct (transformCode vfs content filePath) as [transformed|message]; [|simpl; auto].
  cbn [snd Transform.transformCache].
  set (entry := {| TransformCache.code := transformed;
                   TransformCache.hash := simpleHash content |}).
  set (stored := TransformCache.set filePath entry (Transform.transformCache st)).
  assert (TransformCache.size stored <= 501) as Hle.
  { pose proof (cache_set_size_le filePath entry (Transform.transformCache st)).
    subst stored. lia. }
  assert (Spec.keysNonEmpty stored) as Hstored.
  { now apply cache_set_keysNonEmpty. }
  destruct (le_lt_dec (TransformCache.size stored) 500) as [Hsmall|Hbig].
  - rewrite (evict_small stored Hsmall).
    split; [exact Hsmall|]. split; [exact Hstored|].
    right. exists entry. left. auto.
  - destruct stored as [|[k v] rest] eqn:Hs; [simpl in Hbig; lia|].
    assert (Js.truthy k = true) as Hk.
    { unfold Spec.keysNonEmpty, TransformCache.keys in Hstored. simpl in Hstored.
      now inversion Hstored. }
    rewrite (evict_large k v rest Hbig Hk).
    unfold TransformCache.size in *. simpl in Hle, Hbig.
    split; [lia|]. split.
    + unfold Spec.keysNonEmpty, TransformCache.keys in *. simpl in Hstored.
      now inversion Hstored.
    + right. exists entry. right. fold stored. rewrite Hs. simpl.
      split; [lia|]. now exists (k, v).
Qed.

(** C4. With non-empty paths as keys, [transformAndServe] keeps the cache
    within 500 entries. It leaves the cache as it is (a hit, or a failure),
    or stores an entry with [Map.set] - an existing key keeps its place, a
    new key goes last - and, when that makes 501 entries, drops exactly the
    first one in insertion order and keeps the others in order. *)
Theorem transform_cache_bounded_fifo
    (vfs : VirtualFS) (filePath : string) (st : Transform.State)
    (Hpath : Js.truthy filePath = true)
    (Hkeys : Spec.keysNonEmpty (Transform.transformCache st))
    (Hsize : TransformCache.size (Transform.transformCache st) <= 500) :
  let cache' := Transform.transformCache (snd (serve vfs filePath st)) in
  TransformCache.size cache' <= 500
  /\ Spec.keysNonEmpty cache'
  /\ (cache' = Transform.transformCache st
      \/ exists entry,
          let stored := TransformCache.set filePath entry (Transform.transformCache st) in
          (TransformCache.size stored <= 500 /\ cache' = stored)
          \/ (TransformCache.size stored = 501
              /\ exists oldest, stored = oldest :: cache')).
Proof. exact (serve_cache_step vfs filePath st Hpath Hkeys Hsize). Qed.

(** The bound holds after every sequence of requests for non-empty paths,
    whatever the file system is at each request. *)
Lemma transform_cache_bounded_always (requests : list (VirtualFS * string)) :
  List.Forall (fun r => Js.truthy (snd r) = true) requests ->
  let final :=
    List.fold_left (fun st r => snd (serve (fst r) (snd r) st)) requests
      Transform.initial in
  TransformCache.size (Transform.transformCache final) <= 500.
Proof.
  intros Hreq final.
  assert (forall st,
             Spec.keysNonEmpty (Transform.transformCache st) ->
             TransformCache.size (Transform.transformCache st) <= 500 ->
             let st' := List.fold_left (fun st r => snd (serve (fst r) (snd r) st))
                          requests st in
             Spec.keysNonEmpty (Transform.transformCache st')
             /\ TransformCache.size (Transform.transformCache st') <= 500) as Hgen.
  { induction Hreq as [|r requests Hr _ IH]; intros st Hk Hs; simpl; [auto|].
    destruct (serve_cache_step (fst r) (snd r) st Hr Hk Hs)
      as (Hs' & Hk' & _).
    apply IH; assumption. }
  apply (Hgen Transform.initial).
  - constructor.
  - simpl. lia.
Qed.

End TransformCacheFacts.

Lemma transform_cache_content_addressed_witness :
  let st := snd (Samples.serve Samples.indexA "/pages/index.jsx" Transform.initial) in
  let st1 := snd (Samples.serve Samples.indexB "/pages/index.jsx" st) in
  Transform.transformCalls st1
  = Transform.transformCalls st ++ [("B", "/pages/index.jsx")]
  /\ Transform.transformCalls (snd (Samples.serve Samples.indexA "/pages/index.jsx" st1))
     = Transform.transformCalls st1 ++ [("A", "/pages/index.jsx")].
Proof.
  intros st st1.
  apply (proj2 (transform_cache_content_addressed Samples.idHash Samples.markCompiled
                  Samples.enoent Samples.quoted)
           Samples.indexA Samples.indexB "/pages/index.jsx" "A" "B" "/*compiled*/B"
           {| TransformCache.code := "/*compiled*/A"; TransformCache.hash := "A" |} st).
  - vm_compute. reflexivity.
  - vm_compute. reflexivity.
  - vm_compute. reflexivity.
  - reflexivity.
  - apply Nat.leb_le. vm_compute. reflexivity.
  - unfold Samples.idHash. discriminate.
  - reflexivity.
Defined.

(** C3 as stated fails: the source is compiled as [A], then as [B], then
    reverted to [A]; the request after the revert is no cache hit, and the
    transform runs a third time. *)
Lemma revert_after_recompile_misses :
  let path := "/pages/index.jsx" in
  let st1 := snd (Samples.serve Samples.indexA path Transform.initial) in
  let st2 := snd (Samples.serve Samples.indexB path st1) in
  let after := Samples.serve Samples.indexA path st2 in
  Transform.transformCalls (snd after) = [("A", path); ("B", path); ("A", path)]
  /\ headers (fst after) !! "X-Cache" = None
  /\ fst after <> Transform.hitResponse "/*compiled*/A".
Proof.
  vm_compute. split; [reflexivity|]. split; [reflexivity|]. discriminate.
Qed.

Lemma transform_cache_bounded_fifo_witness :
  let cache' :=
    Transform.transformCache
      (snd (Samples.serve Samples.selfFS (Samples.source 500) Samples.fullCache)) in
  TransformCache.size cache' <= 500
  /\ Spec.keysNonEmpty cache'.
Proof.
  intros cache'.
  destruct (transform_cache_bounded_fifo Samples.idHash Samples.markCompiled
              Samples.enoent Samples.quoted
              Samples.selfFS (Samples.source 500) Samples.fullCache)
    as (Hsize & Hkeys & _).
  - vm_compute. reflexivity.
  - apply List.Forall_forall. apply List.forallb_forall. vm_compute. reflexivity.
  - apply Nat.leb_le. vm_compute. reflexivity.
  - split; [exact Hsize | exact Hkeys].
Defined.

(** Eviction follows insertion, not use: the oldest entry of a full cache is
    served from the cache, and the next new path still evicts it. *)
Example eviction_ignores_recent_use :
  let used := Samples.serve Samples.selfFS (Samples.source 0) Samples.fullCache in
  let cache' :=
    Transform.transformCache
      (snd (Samples.serve Samples.selfFS (Samples.source 500) (snd used))) in
  TransformCache.size (Transform.transformCache Samples.fullCache) = 500
  /\ headers (fst used) !! "X-Cache" = Some "hit"
  /\ TransformCache.get (Samples.source 0) cache' = None
  /\ TransformCache.firstKey cache' = Some (Samples.source 1)
  /\ TransformCache.size cache' = 500.
Proof. vm_compute. repeat split; reflexivity. Qed.

(** ** Route handlers: method dispatch *)


Lemma lowerChar_upperChar c : Js.lowerChar (Js.upperChar c) = Js.lowerChar c.
Proof. destruct c as [[] [] [] [] [] [] [] []]; reflexivity. Qed.



Lemma toLowerCase_toUpperCase s : Js.toLowerCase (Js.toUpperCase s) = Js.toLowerCase s.
Proof.
  induction s as [|c s IH]; [reflexivity|].
  unfold Js.toUpperCase, Js.toLowerCase in *. simpl.
  now rewrite lowerChar_upperChar, IH.
Qed.


Section RouteHandlerFacts.

Variable Request : Type.
Variable newRequest :
  string -> string -> gmap string string -> option string -> Request + string.
Variable transformApiHandler : string -> string -> string + string.
Variable evalModule : string -> RouteHandler.Exports Request + string.
Variable readError : string -> string.
Variable quote : string -> string.

Local Abbreviation handle :=
  (RouteHandler.handleAppRouteHandler Request newRequest transformApiHandler
     evalModule readError quote).



(** A function exported under the upper-case name, or under the lower-case
    name when the upper-case one is absent, is the handler that is called. *)
Lemma lookupHandler_found (exports : RouteHandler.Exports Request) (method : string) h :
  (exports !! Js.toUpperCase method = Some (RouteHandler.ExportFunction Request h)
   \/ (exports !! Js.toUpperCase method = None
       /\ exports !! Js.toLowerCase method = Some (RouteHandler.ExportFunction Request h))) ->
  RouteHandler.lookupHandler Request exports method
  = Some (RouteHandler.ExportFunction Request h).
Proof.
  unfold RouteHandler.lookupHandler. rewrite toLowerCase_toUpperCase.
  intros [-> | [-> ->]]; reflexivity.
Qed.

End RouteHandlerFacts.


(** The exported method is served, in either spelling. *)
Example route_handler_get_allowed :
  statusCode (Samples.handleItems "GET") = 200
  /\ statusCode (Samples.handleItems "get") = 200.
Proof. vm_compute. split; reflexivity. Qed.

(** ** The buffered mock response *)

Section MockResponseFacts.

Variable Json : Type.
Variable stringify : Json -> string.

Local Abbreviation call := (MockResponse.call Json stringify).
Local Abbreviation run := (MockResponse.run Json stringify).

Lemma mock_markEnded s :
  MockResponse.ended (MockResponse.markEnded s) = true
  /\ MockResponse.resolveEndedCalls (MockResponse.markEnded s)
     = (if MockResponse.ended s then MockResponse.resolveEndedCalls s
        else S (MockResponse.resolveEndedCalls s))
  /\ MockResponse.headersSent (MockResponse.markEnded s) = MockResponse.headersSent s
  /\ MockResponse.this_headersSent (MockResponse.markEnded s)
     = MockResponse.this_headersSent s.
Proof.
  unfold MockResponse.markEnded. destruct (MockResponse.ended s) eqn:E; simpl; auto.
Qed.

(** One call, seen from the completion signal and the [headersSent] flags. *)
Lemma mock_call_effect (c : ResCall.t Json) s :
  MockResponse.ended (call c s) = MockResponse.ended s || ResCall.isTerminal c
  /\ MockResponse.resolveEndedCalls (call c s)
     = (if negb (MockResponse.ended s) && ResCall.isTerminal c
        then S (MockResponse.resolveEndedCalls s)
        else MockResponse.resolveEndedCalls s)
  /\ MockResponse.headersSent (call c s)
     = MockResponse.headersSent s || ResCall.isWrite c
  /\ MockResponse.this_headersSent (call c s)
     = (if negb (MockResponse.headersSent s) && ResCall.isWrite c
        then true else MockResponse.this_headersSent s).
Proof.
  destruct s as [sc sm h rb e hs ths r].
  destruct c as [code|name value|chunk|data|[text|o]|[d|]|[code|target] url];
    destruct e, hs;
    unfold MockResponse.call, MockResponse.end_;
    try destruct (Js.truthy d); cbn; auto.
Qed.

Lemma mock_run_cons (c : ResCall.t Json) calls s :
  run (c :: calls) s = run calls (call c s).
Proof. reflexivity. Qed.

Lemma mock_run_effect (calls : list (ResCall.t Json)) :
  forall s,
    MockResponse.this_headersSent s = MockResponse.headersSent s ->
    MockResponse.ended (run calls s)
    = MockResponse.ended s || existsb ResCall.isTerminal calls
    /\ MockResponse.resolveEndedCalls (run calls s)
       = (if negb (MockResponse.ended s) && existsb ResCall.isTerminal calls
          then S (MockResponse.resolveEndedCalls s)
          else MockResponse.resolveEndedCalls s)
    /\ MockResponse.headersSent (run calls s)
       = MockResponse.headersSent s || existsb ResCall.isWrite calls
    /\ MockResponse.this_headersSent (run calls s)
       = MockResponse.headersSent (run calls s).
Proof.
  induction calls as [|c calls IH]; intros s Hflag.
  - simpl. rewrite !orb_false_r, andb_false_r. auto.
  - rewrite mock_run_cons.
    destruct (mock_call_effect c s) as (He & Hr & Hh & Ht).
    assert (MockResponse.this_headersSent (call c s)
            = MockResponse.headersSent (call c s)) as Hflag'.
    { rewrite Ht, Hh, Hflag.
      destruct (MockResponse.headersSent s), (ResCall.isWrite c); reflexivity. }
    destruct (IH (call c s) Hflag') as (He' & Hr' & Hh' & Ht').
    rewrite Ht', He', Hr', Hh', He, Hr, Hh. simpl existsb.
    destruct (MockResponse.ended s), (ResCall.isTerminal c),
      (existsb ResCall.isTerminal calls), (MockResponse.headersSent s),
      (ResCall.isWrite c); simpl; auto.
Qed.

(** C8, as the code has it. Whatever the handler calls on the buffered
    response, the completion signal is resolved once if a terminal method
    (json, send, end, redirect) is among the calls and never otherwise, so a
    second [end()] does not resolve it again; and [headersSent], the closure
    variable and the property alike, is true exactly when a [write] is among
    the calls: it becomes true at the first [write], and [json], [send],
    [end] and [redirect] leave it as it is. *)
Theorem mock_response_completes_once (calls : list (ResCall.t Json)) :
  let s := run calls (MockResponse.createMockResponse) in
  MockResponse.resolveEndedCalls s
  = (if existsb ResCall.isTerminal calls then 1 else 0)
  /\ MockResponse.resolveEndedCalls s <= 1
  /\ MockResponse.isEnded s = existsb ResCall.isTerminal calls
  /\ MockResponse.headersSent s = existsb ResCall.isWrite calls
  /\ MockResponse.this_headersSent s = existsb ResCall.isWrite calls.
Proof.
  intros s. subst s.
  destruct (mock_run_effect calls MockResponse.createMockResponse eq_refl) as (He & Hr & Hh & Ht).
  unfold MockResponse.isEnded. rewrite Ht, Hh, He, Hr. simpl.
  destruct (existsb ResCall.isTerminal calls); simpl; auto.
Qed.

End MockResponseFacts.

(** C8 as stated fails: [json], [send] and [end] with data produce the body
    and leave [headersSent] false. *)
Lemma mock_response_headersSent_not_set :
  let produced (c : ResCall.t string) :=
    let s := MockResponse.run string Samples.jsonText [c] MockResponse.createMockResponse in
    (ResCall.producesBytes c, MockResponse.responseBody s,
     MockResponse.headersSent s, MockResponse.this_headersSent s) in
  produced (ResCall.json "{}") = (true, "{}", false, false)
  /\ produced (ResCall.send (ResCall.SendString "hello")) = (true, "hello", false, false)
  /\ produced (ResCall.end_ (Some "bye")) = (true, "bye", false, false).
Proof. vm_compute. repeat split; reflexivity. Qed.

(** Two calls of [end()], and a [write] before a [json]. *)
Example mock_response_end_twice :
  let s := MockResponse.run string Samples.jsonText
             [ResCall.end_ (Some "a"); ResCall.end_ (Some "b")] MockResponse.createMockResponse in
  MockResponse.resolveEndedCalls s = 1 /\ MockResponse.responseBody s = "ab".
Proof. vm_compute. split; reflexivity. Qed.
(** ** The streaming mock response *)

Lemma existsb_first {A : Type} (p : A -> bool) (l : list A) :
  existsb p l = true ->
  exists pre c post, l = pre ++ c :: post /\ existsb p pre = false /\ p c = true.
Proof.
  induction l as [|x l IH]; simpl; [discriminate|].
  destruct (p x) eqn:Hx.
  - intros _. exists [], x, l. auto.
  - simpl. intros H. destruct (IH H) as (pre & c & post & -> & Hpre & Hc).
    exists (x :: pre), c, post. simpl. rewrite Hx. auto.
Qed.

Section StreamingFacts.

Variable Json : Type.
Variable stringify : Json -> string.

Local Abbreviation call := (StreamingResponse.call Json stringify).
Local Abbreviation run := (StreamingResponse.run Json stringify).
Local Abbreviation chunkOf := (Spec.chunkOf stringify).
Local Abbreviation chunksOf := (Spec.chunksOf stringify).
Local Abbreviation onChunk := StreamingResponse.onChunk.
Local Abbreviation onEnd := StreamingResponse.onEnd.
Local Abbreviation fresh := StreamingResponse.createStreamingMockResponse.

(** One call, seen from the callbacks: [onStart] if nothing was committed
    yet and the call commits, then the chunk of the call if it has one, then
    [onEnd] if the call is the first to end the response. *)
Lemma streaming_call_effect (c : ResCall.t Json) s :
  (StreamingResponse.ended s = true -> StreamingResponse.headersSent s = true) ->
  exists started,
    StreamingResponse.trace (call c s)
    = StreamingResponse.trace s ++ started ++ List.map onChunk (chunkOf c)
      ++ (if negb (StreamingResponse.ended s) && ResCall.isTerminal c
          then [onEnd] else [])
    /\ (if negb (StreamingResponse.headersSent s) && Spec.startsResponse c
        then exists code message hdrs,
            started = [StreamingResponse.onStart code message hdrs]
        else started = [])
    /\ StreamingResponse.headersSent (call c s)
       = StreamingResponse.headersSent s || Spec.startsResponse c
    /\ StreamingResponse.ended (call c s)
       = StreamingResponse.ended s || ResCall.isTerminal c.
Proof.
  destruct s as [sc sm h e hs r t]. simpl. intros Hinv.
  destruct c as [code|name value|chunk|data|[text|o]|[d|]|[code|target] url];
    destruct e, hs; try (discriminate (Hinv eq_refl));
    unfold StreamingResponse.call, StreamingResponse.end_;
    try destruct (Js.truthy d) eqn:Hd;
    cbn; rewrite ?Hd; cbn;
    first
      [ exists []; split;
        [ cbn; rewrite <- ?List.app_assoc, ?List.app_nil_r; reflexivity
        | split; [reflexivity | auto] ]
      | match goal with
        | |- context [StreamingResponse.onStart ?a ?b ?c] =>
            exists [StreamingResponse.onStart a b c]
        end;
        split; [ rewrite <- ?List.app_assoc; reflexivity | split; [eauto | auto] ] ].
Qed.

Lemma streaming_run_cons (c : ResCall.t Json) calls s :
  run (c :: calls) s = run calls (call c s).
Proof. reflexivity. Qed.

Lemma streaming_run_app (pre post : list (ResCall.t Json)) s :
  run (pre ++ post) s = run post (run pre s).
Proof. apply List.fold_left_app. Qed.

Lemma chunkOf_quiet (c : ResCall.t Json) :
  Spec.startsResponse c = false -> chunkOf c = [].
Proof.
  destruct c as [code|name value|chunk|data|[text|o]|[d|]|[code|target] url];
    cbn; try discriminate; reflexivity.
Qed.

Lemma chunksOf_quiet (calls : list (ResCall.t Json)) :
  existsb Spec.startsResponse calls = false -> chunksOf calls = [].
Proof.
  induction calls as [|c calls IH]; simpl; [reflexivity|].
  intros H. apply orb_false_iff in H as [Hc Hcalls].
  unfold Spec.chunksOf in *. simpl. now rewrite (chunkOf_quiet c Hc), IH.
Qed.

Lemma chunksOf_app (pre post : list (ResCall.t Json)) :
  chunksOf (pre ++ post) = chunksOf pre ++ chunksOf post.
Proof. apply List.flat_map_app. Qed.

(** Before anything is committed: calls that do not commit leave no trace. *)
Lemma streaming_quiet (calls : list (ResCall.t Json)) :
  forall s,
    StreamingResponse.headersSent s = false ->
    StreamingResponse.ended s = false ->
    existsb Spec.startsResponse calls = false ->
    StreamingResponse.trace (run calls s) = StreamingResponse.trace s
    /\ StreamingResponse.headersSent (run calls s) = false
    /\ StreamingResponse.ended (run calls s) = false.
Proof.
  induction calls as [|c calls IH]; intros s Hhs He Hquiet; [auto|].
  simpl in Hquiet. apply orb_false_iff in Hquiet as [Hc Hcalls].
  rewrite streaming_run_cons.
  destruct (streaming_call_effect c s) as (started & Ht & Hstart & Hhs' & He').
  { rewrite He. discriminate. }
  assert (ResCall.isTerminal c = false) as Hterm.
  { unfold Spec.startsResponse in Hc. apply orb_false_iff in Hc. tauto. }
  rewrite Hhs, Hc in Hstart, Hhs'. rewrite He, Hterm in Ht, He'. simpl in *.
  subst started. rewrite (chunkOf_quiet c Hc) in Ht. simpl in Ht.
  rewrite List.app_nil_r in Ht.
  destruct (IH (call c s) Hhs' He' Hcalls) as (-> & -> & ->). auto.
Qed.

(** Committed and not ended: calls that do not end only add chunks. *)
Lemma streaming_open (calls : list (ResCall.t Json)) :
  forall s,
    StreamingResponse.headersSent s = true ->
    StreamingResponse.ended s = false ->
    existsb ResCall.isTerminal calls = false ->
    StreamingResponse.trace (run calls s)
    = StreamingResponse.trace s ++ List.map onChunk (chunksOf calls)
    /\ StreamingResponse.headersSent (run calls s) = true
    /\ StreamingResponse.ended (run calls s) = false.
Proof.
  induction calls as [|c calls IH]; intros s Hhs He Hopen.
  - simpl. rewrite List.app_nil_r. auto.
  - simpl in Hopen. apply orb_false_iff in Hopen as [Hc Hcalls].
    rewrite streaming_run_cons.
    destruct (streaming_call_effect c s) as (started & Ht & Hstart & Hhs' & He').
    { intros _. exact Hhs. }
    rewrite Hhs in Hstart, Hhs'. rewrite He, Hc in Ht, He'. simpl in *.
    subst started. simpl in Ht. rewrite List.app_nil_r in Ht.
    destruct (IH (call c s) Hhs' He' Hcalls) as (-> & -> & ->).
    rewrite Ht. unfold Spec.chunksOf. simpl.
    rewrite List.map_app, List.app_assoc. auto.
Qed.

(** Ended: every later call that has a chunk still hands it to [onChunk]. *)
Lemma streaming_closed (calls : list (ResCall.t Json)) :
  forall s,
    StreamingResponse.headersSent s = true ->
    StreamingResponse.ended s = true ->
    StreamingResponse.trace (run calls s)
    = StreamingResponse.trace s ++ List.map onChunk (chunksOf calls).
Proof.
  induction calls as [|c calls IH]; intros s Hhs He.
  - simpl. now rewrite List.app_nil_r.
  - rewrite streaming_run_cons.
    destruct (streaming_call_effect c s) as (started & Ht & Hstart & Hhs' & He').
    { intros _. exact Hhs. }
    rewrite Hhs in Hstart, Hhs'. rewrite He in Ht, He'. simpl in *.
    subst started. simpl in Ht. rewrite List.app_nil_r in Ht.
    rewrite (IH (call c s) Hhs' He'), Ht. unfold Spec.chunksOf. simpl.
    now rewrite List.map_app, List.app_assoc.
Qed.

(** Committed by a [write], with no terminal call so far. *)
Lemma streaming_started (calls : list (ResCall.t Json)) :
  existsb Spec.startsResponse calls = true ->
  existsb ResCall.isTerminal calls = false ->
  exists code message hdrs,
    StreamingResponse.trace (run calls fresh)
    = StreamingResponse.onStart code message hdrs :: List.map onChunk (chunksOf calls)
    /\ StreamingResponse.headersSent (run calls fresh) = true
    /\ StreamingResponse.ended (run calls fresh) = false.
Proof.
  intros Hstart Hopen.
  destruct (existsb_first _ _ Hstart) as (pre & c & post & -> & Hpre & Hc).
  rewrite List.existsb_app in Hopen. simpl in Hopen.
  apply orb_false_iff in Hopen as [_ Hopen].
  apply orb_false_iff in Hopen as [Hcterm Hpost].
  rewrite streaming_run_app, streaming_run_cons.
  destruct (streaming_quiet pre fresh eq_refl eq_refl Hpre)
    as (Ht0 & Hhs0 & He0).
  set (s0 := run pre fresh) in *.
  destruct (streaming_call_effect c s0) as (started & Ht & Hst & Hhs' & He').
  { rewrite He0. discriminate. }
  rewrite Hhs0, Hc in Hst, Hhs'. rewrite He0, Hcterm in Ht, He'. simpl in *.
  destruct Hst as (code & message & hdrs & ->).
  rewrite Ht0 in Ht. simpl in Ht. rewrite List.app_nil_r in Ht.
  destruct (streaming_open post (call c s0) Hhs' He' Hpost) as (-> & -> & ->).
  exists code, message, hdrs. split; [|auto].
  rewrite Ht, chunksOf_app, (chunksOf_quiet pre Hpre). unfold Spec.chunksOf. simpl.
  now rewrite List.map_app.
Qed.

(** The trace of a sequence whose first terminal call is [c]. *)
Lemma streaming_ended (pre post : list (ResCall.t Json)) (c : ResCall.t Json) :
  existsb ResCall.isTerminal pre = false ->
  ResCall.isTerminal c = true ->
  exists code message hdrs,
    StreamingResponse.trace (run (pre ++ c :: post) fresh)
    = StreamingResponse.onStart code message hdrs
        :: List.map onChunk (chunksOf (pre ++ [c]))
        ++ onEnd :: List.map onChunk (chunksOf post).
Proof.
  intros Hpre Hc.
  assert (Spec.startsResponse c = true) as Hcs.
  { unfold Spec.startsResponse. rewrite Hc. apply orb_true_r. }
  rewrite streaming_run_app, streaming_run_cons.
  set (s0 := run pre fresh).
  assert (exists before,
             StreamingResponse.trace (call c s0)
             = before ++ [onEnd]
             /\ (exists code message hdrs,
                    before = StreamingResponse.onStart code message hdrs
                               :: List.map onChunk (chunksOf (pre ++ [c])))
             /\ StreamingResponse.headersSent (call c s0) = true
             /\ StreamingResponse.ended (call c s0) = true)
    as (before & Ht & (code & message & hdrs & ->) & Hhs & He).
  { destruct (existsb Spec.startsResponse pre) eqn:Hstarted.
    - destruct (streaming_started pre Hstarted Hpre)
        as (code & message & hdrs & Ht0 & Hhs0 & He0).
      fold s0 in Ht0, Hhs0, He0.
      destruct (streaming_call_effect c s0) as (started & Ht & Hst & Hhs' & He').
      { intros _. exact Hhs0. }
      rewrite Hhs0 in Hst, Hhs'. rewrite He0, Hc in Ht, He'. simpl in *.
      subst started. simpl in Ht.
      eexists. split; [rewrite Ht, List.app_assoc; reflexivity|].
      split; [|auto]. exists code, message, hdrs.
      rewrite Ht0, chunksOf_app. unfold Spec.chunksOf at 3. simpl.
      now rewrite List.app_nil_r, List.map_app.
    - destruct (streaming_quiet pre fresh eq_refl eq_refl Hstarted)
        as (Ht0 & Hhs0 & He0).
      fold s0 in Ht0, Hhs0, He0.
      destruct (streaming_call_effect c s0) as (started & Ht & Hst & Hhs' & He').
      { rewrite He0. discriminate. }
      rewrite Hhs0, Hcs in Hst, Hhs'. rewrite He0, Hc in Ht, He'. simpl in *.
      destruct Hst as (code & message & hdrs & ->).
      rewrite Ht0 in Ht. simpl in Ht.
      eexists. split.
      { rewrite Ht.
        change (StreamingResponse.onStart code message hdrs
                  :: List.map onChunk (chunkOf c) ++ [onEnd])
          with ((StreamingResponse.onStart code message hdrs
                   :: List.map onChunk (chunkOf c)) ++ [onEnd]).
        reflexivity. }
      split; [|auto]. exists code, message, hdrs.
      rewrite chunksOf_app, (chunksOf_quiet pre Hstarted).
      unfold Spec.chunksOf. simpl. now rewrite List.app_nil_r. }
  exists code, message, hdrs.
  rewrite (streaming_closed post (call c s0) Hhs He), Ht.
  simpl. now rewrite <- List.app_assoc.
Qed.

Lemma count_chunks (p : StreamingResponse.Event -> bool) (chunks : list string) :
  (forall chunk, p (onChunk chunk) = false) ->
  StreamingResponse.count p (List.map onChunk chunks) = 0.
Proof.
  intros Hp. unfold StreamingResponse.count.
  induction chunks as [|chunk chunks IH]; simpl; [reflexivity|].
  now rewrite Hp.
Qed.

Lemma count_app (p : StreamingResponse.Event -> bool) (l1 l2 : list StreamingResponse.Event) :
  StreamingResponse.count p (l1 ++ l2)
  = StreamingResponse.count p l1 + StreamingResponse.count p l2.
Proof.
  unfold StreamingResponse.count. now rewrite List.filter_app, List.length_app.
Qed.

(** C9, as the code has it. The callbacks of the streaming response follow
    the calls of the handler: nothing while no [write] and no terminal method
    is called; [onStart] once, first, followed by the chunks, once a [write]
    is called; and from the first terminal method on, [onStart], the chunks
    of the calls up to and including that method, [onEnd] once, and then the
    chunks of whatever byte-producing calls the handler still makes.
    [onStart] is thus invoked once if the handler commits the response and
    never otherwise, always before every [onChunk]; [onEnd] is invoked once
    if the handler calls a terminal method and never otherwise, after
    [onStart], and after every [onChunk] except those of calls made once the
    response has ended. *)
Theorem streaming_callbacks_ordered (calls : list (ResCall.t Json)) :
  let t := StreamingResponse.trace (run calls fresh) in
  (existsb Spec.startsResponse calls = false -> t = [])
  /\ (existsb Spec.startsResponse calls = true ->
      existsb ResCall.isTerminal calls = false ->
      exists code message hdrs,
        t = StreamingResponse.onStart code message hdrs
              :: List.map onChunk (chunksOf calls))
  /\ (forall pre c post,
        calls = pre ++ c :: post ->
        existsb ResCall.isTerminal pre = false ->
        ResCall.isTerminal c = true ->
        exists code message hdrs,
          t = StreamingResponse.onStart code message hdrs
                :: List.map onChunk (chunksOf (pre ++ [c]))
                ++ onEnd :: List.map onChunk (chunksOf post))
  /\ StreamingResponse.count StreamingResponse.isStart t
     = (if existsb Spec.startsResponse calls then 1 else 0)
  /\ StreamingResponse.count StreamingResponse.isEnd t
     = (if existsb ResCall.isTerminal calls then 1 else 0).
Proof.
  intros t.
  assert (existsb Spec.startsResponse calls = false -> t = []) as Hquiet.
  { intros H. subst t.
    now destruct (streaming_quiet calls fresh eq_refl eq_refl H)
      as (-> & _). }
  assert (existsb Spec.startsResponse calls = true ->
          existsb ResCall.isTerminal calls = false ->
          exists code message hdrs,
            t = StreamingResponse.onStart code message hdrs
                  :: List.map onChunk (chunksOf calls)) as Hopen.
  { intros Hs Ht. subst t.
    destruct (streaming_started calls Hs Ht) as (code & message & hdrs & H & _).
    now exists code, message, hdrs. }
  assert (forall pre c post,
             calls = pre ++ c :: post ->
             existsb ResCall.isTerminal pre = false ->
             ResCall.isTerminal c = true ->
             exists code message hdrs,
               t = StreamingResponse.onStart code message hdrs
                     :: List.map onChunk (chunksOf (pre ++ [c]))
                     ++ onEnd :: List.map onChunk (chunksOf post)) as Hended.
  { intros pre c post -> Hpre Hc. subst t. now apply streaming_ended. }
  split; [exact Hquiet|]. split; [exact Hopen|]. split; [exact Hended|].
  destruct (existsb ResCall.isTerminal calls) eqn:Hterm.
  - destruct (existsb_first _ _ Hterm) as (pre & c & post & Hcalls & Hpre & Hc).
    destruct (Hended pre c post Hcalls Hpre Hc) as (code & message & hdrs & ->).
    assert (existsb Spec.startsResponse calls = true) as ->.
    { rewrite Hcalls, List.existsb_app. simpl. unfold Spec.startsResponse at 2.
      rewrite Hc. now rewrite !orb_true_r. }
    change (StreamingResponse.onStart code message hdrs
              :: List.map onChunk (chunksOf (pre ++ [c]))
              ++ onEnd :: List.map onChunk (chunksOf post))
      with ([StreamingResponse.onStart code message hdrs]
              ++ List.map onChunk (chunksOf (pre ++ [c]))
              ++ [onEnd] ++ List.map onChunk (chunksOf post)).
    rewrite !count_app, !count_chunks by reflexivity. split; reflexivity.
  - destruct (existsb Spec.startsResponse calls) eqn:Hstart.
    + destruct (Hopen eq_refl eq_refl) as (code & message & hdrs & ->).
      change (StreamingResponse.onStart code message hdrs
                :: List.map onChunk (chunksOf calls))
        with ([StreamingResponse.onStart code message hdrs]
                ++ List.map onChunk (chunksOf calls)).
      rewrite !count_app, !count_chunks by reflexivity. split; reflexivity.
    + rewrite (Hquiet eq_refl). split; reflexivity.
Qed.

End StreamingFacts.

(** C9 as stated fails: a handler that ends nothing gets no [onEnd] (and no
    [onStart] if it writes nothing either), and a [write] after [end()]
    reaches [onChunk] after [onEnd]. *)
Lemma streaming_callbacks_not_always_ordered :
  let traceOf calls :=
    StreamingResponse.trace
      (StreamingResponse.run string Samples.jsonText calls
         StreamingResponse.createStreamingMockResponse) in
  traceOf [ResCall.status 204] = []
  /\ traceOf [ResCall.write "a"]
     = [StreamingResponse.onStart 200 "OK" ∅; StreamingResponse.onChunk "a"]
  /\ traceOf [ResCall.end_ None; ResCall.write "late"]
     = [StreamingResponse.onStart 200 "OK" ∅; StreamingResponse.onEnd;
        StreamingResponse.onChunk "late"].
Proof. vm_compute. repeat split; reflexivity. Qed.

(** A handler that streams two chunks and ends. *)
Example streaming_write_write_end :
  StreamingResponse.trace
    (StreamingResponse.run string Samples.jsonText
       [ResCall.setHeader "Content-Type" "text/plain"; ResCall.write "a";
        ResCall.write "b"; ResCall.end_ None]
       StreamingResponse.createStreamingMockResponse)
  = [StreamingResponse.onStart 200 "OK" {[ "Content-Type" := "text/plain" ]};
     StreamingResponse.onChunk "a"; StreamingResponse.onChunk "b";
     StreamingResponse.onEnd].
Proof. vm_compute. reflexivity. Qed.


(** ** The mock request of a Pages-router API route *)

Lemma noneOf_before_same stop s : Spec.noneOf stop (Url.before stop s) = true.
Proof.
  induction s as [|c s IH]; simpl; [reflexivity|].
  destruct (stop c) eqn:Hc; simpl; [reflexivity|]. now rewrite Hc.
Qed.

Lemma noneOf_before stop other s :
  Spec.noneOf other s = true -> Spec.noneOf other (Url.before stop s) = true.
Proof.
  induction s as [|c s IH]; simpl; [reflexivity|].
  intros H. apply andb_true_iff in H as [Hc Hs].
  destruct (stop c); simpl; [reflexivity|]. now rewrite Hc, IH.
Qed.

Lemma noneOf_sliceFrom stop n s :
  Spec.noneOf stop s = true -> Spec.noneOf stop (Js.sliceFrom n s) = true.
Proof.
  revert s. induction n as [|n IH]; intros s; [now destruct s|].
  destruct s as [|c s]; simpl; [reflexivity|].
  intros H. apply andb_true_iff in H as [_ Hs]. now apply IH.
Qed.

Lemma noneOf_append stop s1 s2 :
  Spec.noneOf stop s1 = true -> Spec.noneOf stop s2 = true ->
  Spec.noneOf stop (s1 +:+ s2) = true.
Proof.
  induction s1 as [|c s1 IH]; simpl; [auto|].
  intros H1 H2. apply andb_true_iff in H1 as [Hc Hs]. now rewrite Hc, IH.
Qed.

Lemma before_noneOf stop s : Spec.noneOf stop s = true -> Url.before stop s = s.
Proof.
  induction s as [|c s IH]; simpl; [reflexivity|].
  intros H. apply andb_true_iff in H as [Hc Hs]. apply negb_true_iff in Hc.
  now rewrite Hc, IH.
Qed.

Lemma after_noneOf stop s : Spec.noneOf stop s = true -> Url.after stop s = "".
Proof.
  induction s as [|c s IH]; simpl; [reflexivity|].
  intros H. apply andb_true_iff in H as [Hc Hs]. apply negb_true_iff in Hc.
  now rewrite Hc, IH.
Qed.

(** The path of a parsed URL holds neither ['?'] nor ['#']. *)
Lemma parse_pathname_clean (stop : ascii -> bool) input :
  stop = Url.isQuestion \/ stop = Url.isHash ->
  Spec.noneOf stop (Url.pathname (Url.parse input)) = true.
Proof.
  intros Hstop. unfold Url.parse. simpl.
  assert (Spec.noneOf stop (Url.before Url.isQuestion (Url.before Url.isHash input)) = true)
    as Hpath.
  { destruct Hstop as [-> | ->].
    - apply noneOf_before_same.
    - apply noneOf_before, noneOf_before_same. }
  destruct (Js.startsWith "/" _); [exact Hpath|].
  apply noneOf_append; [|exact Hpath].
  destruct Hstop as [-> | ->]; reflexivity.
Qed.

Lemma noneOf_dropDigits stop s :
  Spec.noneOf stop s = true -> Spec.noneOf stop (MockRequest.dropDigits s) = true.
Proof.
  induction s as [|c s IH]; simpl; [reflexivity|].
  intros H. destruct (MockRequest.isDigit c); [|exact H].
  apply andb_true_iff in H as [_ Hs]. now apply IH.
Qed.

Lemma noneOf_orSlash stop s :
  stop "/"%char = false ->
  Spec.noneOf stop s = true -> Spec.noneOf stop (MockRequest.orSlash s) = true.
Proof.
  intros Hslash H. unfold MockRequest.orSlash.
  destruct (Js.truthy s); [exact H|]. simpl. now rewrite Hslash.
Qed.

(** Stripping the virtual prefix, the asset prefix and the base path only
    drops characters, or yields ["/"]. *)
Lemma requestPathname_clean (stop : ascii -> bool) assetPrefix basePath url :
  stop = Url.isQuestion \/ stop = Url.isHash ->
  Spec.noneOf stop (MockRequest.requestPathname assetPrefix basePath url) = true.
Proof.
  intros Hstop.
  assert (stop "/"%char = false) as Hslash.
  { destruct Hstop as [-> | ->]; reflexivity. }
  pose proof (parse_pathname_clean stop url Hstop) as H0.
  unfold MockRequest.requestPathname.
  set (p0 := Url.pathname (Url.parse url)) in *.
  assert (Spec.noneOf stop (MockRequest.stripVirtualPrefix p0) = true) as H1.
  { unfold MockRequest.stripVirtualPrefix.
    destruct (Js.startsWith "/__virtual__/" p0); [|exact H0].
    destruct (Js.sliceFrom 13 p0) as [|c rest] eqn:Hrest; [exact H0|].
    destruct (MockRequest.isDigit c); [|exact H0].
    apply noneOf_orSlash, noneOf_dropDigits; [exact Hslash|].
    rewrite <- Hrest. now apply noneOf_sliceFrom. }
  set (p1 := MockRequest.stripVirtualPrefix p0) in *.
  assert (Spec.noneOf stop (MockRequest.stripAssetPrefix assetPrefix p1) = true) as H2.
  { unfold MockRequest.stripAssetPrefix.
    destruct (_ && _); [|exact H1].
    destruct (_ || _); [|exact H1].
    assert (Spec.noneOf stop
              (MockRequest.orSlash (Js.sliceFrom (String.length assetPrefix) p1)) = true)
      as Hrest.
    { now apply noneOf_orSlash, noneOf_sliceFrom. }
    destruct (Js.startsWith "//" _); [now apply noneOf_sliceFrom | exact Hrest]. }
  set (p2 := MockRequest.stripAssetPrefix assetPrefix p1) in *.
  unfold MockRequest.stripBasePath.
  destruct (_ && _); [|exact H2].
  destruct (_ || _); [|exact H2].
  now apply noneOf_orSlash, noneOf_sliceFrom.
Qed.

(** A reference without ['?'] and ['#'] has no query. *)
Lemma parse_clean_no_search pathname :
  Spec.noneOf Url.isQuestion pathname = true ->
  Spec.noneOf Url.isHash pathname = true ->
  Url.search (Url.parse pathname) = "".
Proof.
  intros Hq Hh. unfold Url.parse. simpl.
  rewrite (before_noneOf _ _ Hh), (after_noneOf _ _ Hq). reflexivity.
Qed.

Section MockRequestFacts.

Variable Json : Type.
Variable parseJson : string -> option Json.
Variable decodeURIComponent : string -> option string.
Variable formDecode : string -> string.
Variable transformApiHandler : string -> string -> string + string.

Lemma createMockRequest_query method pathname headers body req :
  MockRequest.createMockRequest Json parseJson decodeURIComponent formDecode
    method pathname headers body = Some req ->
  MockRequest.query Json req
  = fromEntries (Url.searchParams formDecode (Url.parse pathname))
  /\ MockRequest.url Json req = pathname.
Proof.
  unfold MockRequest.createMockRequest.
  destruct (match body with Some b => _ | None => _ end); [|discriminate].
  destruct (MockRequest.parseCookies _ _); [|discriminate].
  intros [= <-]. auto.
Qed.

(** C10. The mock request a Pages-router API handler receives from
    [handleRequest] has an empty [query], whatever query string the
    requested URL carries: [handleApiRoute] passes the dispatcher's
    [pathname], which holds no ['?'], and [createMockRequest] takes [query]
    from the URL it parses out of that path, which is also what [req.url]
    is. *)
Theorem api_request_query_empty
    (vfs : VirtualFS) (pagesDir assetPrefix basePath : string)
    (method url : string) (headers : gmap string string) (body : option string)
    (req : MockRequest.t Json)
    (Hreq : MockRequest.handleRequest_apiRequest Json parseJson decodeURIComponent
              formDecode transformApiHandler vfs pagesDir assetPrefix basePath
              method url headers body = Some req) :
  MockRequest.query Json req = ∅
  /\ MockRequest.url Json req = MockRequest.requestPathname assetPrefix basePath url
  /\ Spec.noneOf Url.isQuestion (MockRequest.url Json req) = true.
Proof.
  unfold MockRequest.handleRequest_apiRequest, MockRequest.handleApiRoute_request in Hreq.
  destruct (Js.startsWith "/api/" _); [|discriminate].
  destruct (MockRequest.resolveApiFile _ _ _) as [apiFile|]; [|discriminate].
  destruct (readFileSync vfs apiFile) as [code|]; [|discriminate].
  destruct (transformApiHandler code apiFile); [|discriminate].
  apply createMockRequest_query in Hreq as [Hquery Hurl].
  pose proof (requestPathname_clean Url.isQuestion assetPrefix basePath url
                (or_introl eq_refl)) as Hq.
  pose proof (requestPathname_clean Url.isHash assetPrefix basePath url
                (or_intror eq_refl)) as Hh.
  rewrite Hurl. split; [|split; [reflexivity | exact Hq]].
  rewrite Hquery. unfold Url.searchParams.
  rewrite (parse_clean_no_search _ Hq Hh). reflexivity.
Qed.

(** The streaming entry point builds its mock request the same way. *)
Lemma streaming_api_request_query_empty
    (vfs : VirtualFS) (pagesDir method url : string)
    (headers : gmap string string) (body : option string) (req : MockRequest.t Json) :
  MockRequest.handleStreamingRequest_apiRequest Json parseJson decodeURIComponent
    formDecode transformApiHandler vfs pagesDir method url headers body = Some req ->
  MockRequest.query Json req = ∅.
Proof.
  unfold MockRequest.handleStreamingRequest_apiRequest,
    MockRequest.handleApiRoute_request.
  destruct (Js.startsWith "/api/" _); [|discriminate].
  destruct (MockRequest.resolveApiFile _ _ _) as [apiFile|]; [|discriminate].
  destruct (readFileSync vfs apiFile) as [code|]; [|discriminate].
  destruct (transformApiHandler code apiFile); [|discriminate].
  intros Hreq. apply createMockRequest_query in Hreq as [-> _].
  unfold Url.searchParams.
  rewrite (parse_clean_no_search _
             (parse_pathname_clean Url.isQuestion url (or_introl eq_refl))
             (parse_pathname_clean Url.isHash url (or_intror eq_refl))).
  reflexivity.
Qed.

End MockRequestFacts.

Lemma api_request_query_empty_witness :
  MockRequest.query string
    {| MockRequest.method := "GET";
       MockRequest.url := "/api/hello";
       MockRequest.headers := ∅;
       MockRequest.query := ∅;
       MockRequest.body := None;
       MockRequest.cookies := ∅ |} = ∅
  /\ Samples.apiRequest "/api/hello?name=world"
     = Some {| MockRequest.method := "GET";
               MockRequest.url := "/api/hello";
               MockRequest.headers := ∅;
               MockRequest.query := ∅;
               MockRequest.body := None;
               MockRequest.cookies := ∅ |}.
Proof.
  assert (Samples.apiRequest "/api/hello?name=world"
          = Some {| MockRequest.method := "GET";
                    MockRequest.url := "/api/hello";
                    MockRequest.headers := ∅;
                    MockRequest.query := ∅;
                    MockRequest.body := None;
                    MockRequest.cookies := ∅ |}) as Hreq.
  { vm_compute. reflexivity. }
  split; [|exact Hreq].
  exact (proj1 (api_request_query_empty string Some Some (fun s => s)
                  (fun code _ => inl code) Samples.helloApi "/pages" "" ""
                  "GET" "/api/hello?name=world" ∅ None _ Hreq)).
Defined.

(** A URL that is parsed directly does yield its query: the parameters are
    lost because the dispatcher hands over the bare path. *)
Example searchParams_of_full_url :
  fromEntries (Url.searchParams (fun s => s) (Url.parse "/api/hello?name=world"))
  = {[ "name" := "world" ]}.
Proof. vm_compute. reflexivity. Qed.

(** * Further properties of the server *)

(** ** Paths *)

Lemma prefix_refl_app a b : String.prefix a (a +:+ b) = true.
Proof.
  induction a as [|c a IH]; simpl; [now destruct b|].
  destruct (ascii_dec c c); [exact IH | contradiction].
Qed.

Lemma prefix_trans a b c :
  String.prefix a b = true -> String.prefix b c = true -> String.prefix a c = true.
Proof.
  revert b c. induction a as [|x a IH]; intros b c; [now destruct c|].
  destruct b as [|y b]; simpl; [discriminate|].
  destruct (ascii_dec x y) as [->|]; [|discriminate].
  intros Hab. destruct c as [|z c]; simpl; [discriminate|].
  destruct (ascii_dec y z) as [->|]; [|discriminate].
  intros Hbc. eapply IH; eassumption.
Qed.


(** ** Pages router: what is resolved exists *)





(** ** App router: what is resolved exists, and parameters come from the URL *)

Lemma prefix_refl a : String.prefix a a = true.
Proof.
  induction a as [|c a IH]; [reflexivity|]. simpl.
  destruct (ascii_dec c c); [exact IH | contradiction].
Qed.

Lemma paramsFrom_weaken current rest before after :
  Spec.paramsFrom rest before after -> Spec.paramsFrom (current :: rest) before after.
Proof.
  intros H k v Hk. destruct (H k v Hk) as [Hb|Hv]; [now left|right].
  destruct v as [s|l]; simpl in *; [now right|].
  destruct Hv as [Hne Hsuf]. split; [exact Hne | now apply suffix_cons_r].
Qed.

Lemma paramsFrom_insert segments name v before after :
  Spec.paramFrom segments v ->
  Spec.paramsFrom segments (<[name := v]> before) after ->
  Spec.paramsFrom segments before after.
Proof.
  intros Hv H k w Hk. destruct (H k w Hk) as [Hb|Hw]; [|now right].
  destruct (decide (name = k)) as [->|Hne].
  - rewrite lookup_insert_eq in Hb. injection Hb as <-. now right.
  - rewrite lookup_insert_ne in Hb by exact Hne. now left.
Qed.

Lemma Resolved_step vfs appDir dirPath entry segments before route :
  Spec.Resolved vfs appDir (dirPath +:+ "/" +:+ entry) segments before route ->
  Spec.Resolved vfs appDir dirPath segments before route.
Proof.
  intros (d & l & Hpage & Hr & Hpre & Hparams). exists d, l.
  split; [exact Hpage|]. split; [exact Hr|]. split; [|exact Hparams].
  unfold Js.startsWith in *. eapply prefix_trans; [apply prefix_refl_app | exact Hpre].
Qed.

Lemma tryTerminal_Resolved vfs appDir dirPath layouts params segments route :
  App.tryTerminal vfs appDir dirPath layouts params = Some route ->
  Spec.Resolved vfs appDir dirPath segments params route.
Proof.
  unfold App.tryTerminal.
  destruct (App.findPage vfs dirPath) as [p|] eqn:Hp.
  - intros [= <-]. exists dirPath, (App.collectLayout vfs dirPath layouts). simpl.
    split; [exact Hp|]. split; [reflexivity|]. split; [apply prefix_refl|].
    intros k v Hk. now left.
  - intros H. apply firstSome_Some in H as (group & _ & H).
    destruct (App.findPage vfs (dirPath +:+ "/" +:+ group)) as [p|] eqn:Hg; [|discriminate].
    injection H as <-. apply Resolved_step with (entry := group).
    eexists _, _. simpl. split; [exact Hg|]. split; [reflexivity|].
    split; [apply prefix_refl|]. intros k v Hk. now left.
Qed.

Lemma tryDynamicEntry_Resolved vfs appDir descend basePath current rest layouts params
    entry route :
  (forall d l p r, descend d l p = Some r -> Spec.Resolved vfs appDir d rest p r) ->
  App.tryDynamicEntry vfs appDir descend basePath current rest layouts params entry
  = Some route ->
  Spec.Resolved vfs appDir (basePath +:+ "/" +:+ entry) (current :: rest) params route.
Proof.
  intros Hdescend. unfold App.tryDynamicEntry.
  assert (Spec.paramFrom (current :: rest) (ParamList (current :: rest))) as Hlist.
  { simpl. split; [discriminate | reflexivity]. }
  assert (Spec.paramFrom (current :: rest) (ParamString current)) as Hstring.
  { simpl. now left. }
  assert (forall name v,
             Spec.paramFrom (current :: rest) v ->
             Spec.Resolved vfs appDir (basePath +:+ "/" +:+ entry) (current :: rest)
               (<[name := v]> params) route ->
             Spec.Resolved vfs appDir (basePath +:+ "/" +:+ entry) (current :: rest)
               params route) as Hbind.
  { intros name v Hv (d & l & Hpage & Hr & Hpre & Hparams). exists d, l.
    split; [exact Hpage|]. split; [exact Hr|]. split; [exact Hpre|].
    eapply paramsFrom_insert; eassumption. }
  destruct (Js.startsWith "[..." entry && Js.endsWith "]" entry).
  { destruct (isDirectory vfs _); [|discriminate]. intros H.
    eapply Hbind; [exact Hlist|]. eapply tryTerminal_Resolved, H. }
  destruct (Js.startsWith "[[..." entry && Js.endsWith "]]" entry).
  { destruct (isDirectory vfs _); [|discriminate]. intros H.
    eapply Hbind; [exact Hlist|]. eapply tryTerminal_Resolved, H. }
  destruct (Js.startsWith "[" entry && Js.endsWith "]" entry && negb (Js.includes "." entry));
    [|discriminate].
  destruct (isDirectory vfs _); [|discriminate]. intros H.
  apply (Hbind (Js.slice 1 1 entry) (ParamString current) Hstring).
  apply Hdescend in H as (d & l & Hpage & Hr & Hpre & Hparams). exists d, l.
  split; [exact Hpage|]. split; [exact Hr|]. split; [exact Hpre|].
  apply paramsFrom_weaken. exact Hparams.
Qed.

Lemma Resolved_weaken vfs appDir dirPath current rest before route :
  Spec.Resolved vfs appDir dirPath rest before route ->
  Spec.Resolved vfs appDir dirPath (current :: rest) before route.
Proof.
  intros (d & l & Hpage & Hr & Hpre & Hparams). exists d, l.
  split; [exact Hpage|]. split; [exact Hr|]. split; [exact Hpre|].
  now apply paramsFrom_weaken.
Qed.

Lemma tryPath_Resolved vfs appDir segments :
  forall dirPath layouts params route,
    App.tryPath vfs appDir dirPath segments layouts params = Some route ->
    Spec.Resolved vfs appDir dirPath segments params route.
Proof.
  induction segments as [|current rest IH]; intros dirPath layouts params route.
  - apply tryTerminal_Resolved.
  - assert (forall d l p r,
               (fun d l p => App.tryPath vfs appDir d rest l p) d l p = Some r ->
               Spec.Resolved vfs appDir d rest p r) as Hdescend.
    { intros d l p r. apply IH. }
    simpl.
    destruct (if isDirectory vfs (dirPath +:+ "/" +:+ current) then _ else None)
      as [r|] eqn:Hexact.
    { intros [= <-]. destruct (isDirectory vfs _); [|discriminate].
      eapply Resolved_step, Resolved_weaken, IH, Hexact. }
    clear Hexact.
    destruct (Js.firstSome _ (App.getRouteGroups vfs dirPath)) as [r|] eqn:Hgroups.
    + intros [= <-]. apply firstSome_Some in Hgroups as (group & _ & Hgroup).
      apply Resolved_step with (entry := group).
      destruct (if isDirectory vfs ((dirPath +:+ "/" +:+ group) +:+ "/" +:+ current)
                then _ else None) as [r'|] eqn:Hexact.
      { injection Hgroup as <-. destruct (isDirectory vfs _); [|discriminate].
        eapply Resolved_step, Resolved_weaken, IH, Hexact. }
      destruct (readdirSync vfs (dirPath +:+ "/" +:+ group)) as [groupEntries|];
        [|discriminate].
      apply firstSome_Some in Hgroup as (entry & _ & Hentry).
      eapply Resolved_step, tryDynamicEntry_Resolved, Hentry. exact Hdescend.
    + clear Hgroups.
      destruct (readdirSync vfs dirPath) as [entries|]; [|discriminate].
      intros Hentries. apply firstSome_Some in Hentries as (entry & _ & Hentry).
      eapply Resolved_step, tryDynamicEntry_Resolved, Hentry. exact Hdescend.
Qed.





(** X3. The parameters of a resolved App route come from the URL: a value
    bound by a single dynamic directory is one of the path segments, and a
    value bound by a catch-all directory is a non-empty tail of the path
    segments. *)
Theorem resolveAppRoute_params_from_url
    (vfs : VirtualFS) (appDir pathname : string) (route : AppRoute)
    (name : string) (value : ParamValue)
    (Hroute : App.resolveAppRoute vfs appDir pathname = Some route)
    (Hparam : params route !! name = Some value) :
  Spec.paramFrom
    (if String.eqb pathname "/" then [] else Js.segmentsOf pathname) value.
Proof.
  unfold App.resolveAppRoute, App.resolveAppDynamicRoute in Hroute.
  apply tryPath_Resolved in Hroute as (d & l & _ & _ & _ & Hparams).
  destruct (Hparams name value Hparam) as [Hempty|Hfrom]; [|exact Hfrom].
  rewrite lookup_empty in Hempty. discriminate.
Qed.

Lemma resolveAppRoute_params_from_url_witness :
  Spec.paramFrom ["blog"; "a"; "b"; "c"] (ParamList ["a"; "b"; "c"]).
Proof.
  apply (resolveAppRoute_params_from_url Samples.appGrouped "/app" "/blog/a/b/c"
           (App.routeAt Samples.appGrouped "/app" "/app/blog/[...slug]"
              "/app/blog/[...slug]/page.tsx"
              ["/app/layout.tsx"; "/app/blog/layout.tsx"]
              {[ "slug" := ParamList ["a"; "b"; "c"] ]})
           "slug").
  - vm_compute. reflexivity.
  - vm_compute. reflexivity.
Defined.

(** ** App router: empty path segments *)

Lemma split_nonempty sep s : Js.split sep s <> [].
Proof.
  destruct s as [|c s]; simpl; [discriminate|].
  destruct (Ascii.eqb c sep); [discriminate|].
  destruct (Js.split sep s); discriminate.
Qed.

Lemma split_app_sep sep a b :
  Js.split sep (a +:+ String sep b) = Js.split sep a ++ Js.split sep b.
Proof.
  induction a as [|c a IH]; simpl.
  - now rewrite Ascii.eqb_refl.
  - rewrite IH. destruct (Ascii.eqb c sep); [reflexivity|].
    destruct (Js.split sep a) as [|x xs] eqn:Ha; [|reflexivity].
    now apply split_nonempty in Ha.
Qed.

Lemma segmentsOf_app a b :
  Js.segmentsOf (a +:+ String "/" b) = Js.segmentsOf a ++ Js.segmentsOf b.
Proof. unfold Js.segmentsOf. now rewrite split_app_sep, List.filter_app. Qed.

(** The test for ["/"] in the resolvers changes nothing. *)
Lemma segments_root pathname :
  (if String.eqb pathname "/" then [] else Js.segmentsOf pathname)
  = Js.segmentsOf pathname.
Proof.
  destruct (String.eqb pathname "/") eqn:E; [|reflexivity].
  apply String.eqb_eq in E as ->. reflexivity.
Qed.

(** X4. App-router resolution, of pages and of route files alike, only sees
    the non-empty segments of the path: a trailing slash and a doubled slash
    change nothing. *)
Theorem app_resolution_ignores_empty_segments
    (vfs : VirtualFS) (appDir a b : string) :
  App.resolveAppRoute vfs appDir (a +:+ "/") = App.resolveAppRoute vfs appDir a
  /\ App.resolveAppRoute vfs appDir (a +:+ "//" +:+ b)
     = App.resolveAppRoute vfs appDir (a +:+ "/" +:+ b)
  /\ RouteFiles.resolveAppRouteHandler vfs appDir (a +:+ "/")
     = RouteFiles.resolveAppRouteHandler vfs appDir a
  /\ RouteFiles.resolveAppRouteHandler vfs appDir (a +:+ "//" +:+ b)
     = RouteFiles.resolveAppRouteHandler vfs appDir (a +:+ "/" +:+ b).
Proof.
  assert (Js.segmentsOf (a +:+ "/") = Js.segmentsOf a) as Htrail.
  { rewrite (segmentsOf_app a ""). apply List.app_nil_r. }
  assert (Js.segmentsOf (a +:+ "//" +:+ b) = Js.segmentsOf (a +:+ "/" +:+ b)) as Hdouble.
  { change (a +:+ "//" +:+ b) with (a +:+ String "/" (String "/" b)).
    change (a +:+ "/" +:+ b) with (a +:+ String "/" b).
    rewrite !segmentsOf_app.
    assert (Js.segmentsOf (String "/" b) = Js.segmentsOf b) as ->
      by exact (segmentsOf_app "" b).
    reflexivity. }
  unfold App.resolveAppRoute, RouteFiles.resolveAppRouteHandler.
  rewrite !segments_root, Htrail, Hdouble. auto.
Qed.

(** ** App-router route files *)

Lemma length_append a b : String.length (a +:+ b) = String.length a + String.length b.
Proof. induction a as [|c a IH]; simpl; [reflexivity | now rewrite IH]. Qed.

Lemma sliceFrom_append a b : Js.sliceFrom (String.length a) (a +:+ b) = b.
Proof. induction a as [|c a IH]; simpl; [now destruct b | exact IH]. Qed.

Lemma endsWith_append a suf : Js.endsWith suf (a +:+ suf) = true.
Proof.
  unfold Js.endsWith. rewrite length_append.
  replace (String.length a + String.length suf - String.length suf)
    with (String.length a) by lia.
  rewrite sliceFrom_append, String.eqb_refl.
  apply andb_true_iff. split; [apply Nat.leb_le; lia | reflexivity].
Qed.

Lemma append_assoc a b c : (a +:+ b) +:+ c = a +:+ (b +:+ c).
Proof.
  induction a as [|x a IH]; [reflexivity|].
  change (String x ((a +:+ b) +:+ c) = String x (a +:+ (b +:+ c))).
  now rewrite IH.
Qed.








(** ** The choice of the router *)

Lemma find_existsb {A : Type} (p : A -> bool) (l : list A) :
  existsb p l = true <-> is_Some (List.find p l).
Proof.
  induction l as [|x l IH]; simpl.
  - split; [discriminate | intros [y Hy]; discriminate].
  - destruct (p x); simpl; [split; eauto | exact IH].
Qed.

Lemma group_page_paths appDir entry :
  List.map (fun ext => appDir +:+ "/" +:+ entry +:+ "/page" +:+ ext) extensions
  = List.map (fun ext => (appDir +:+ "/" +:+ entry) +:+ "/page" +:+ ext) extensions.
Proof.
  apply List.map_ext. intros ext.
  rewrite (append_assoc appDir ("/" +:+ entry) ("/page" +:+ ext)).
  now rewrite (append_assoc "/" entry ("/page" +:+ ext)).
Qed.

Lemma group_page_exists vfs appDir entry :
  existsb (exists_ vfs)
    (List.map (fun ext => appDir +:+ "/" +:+ entry +:+ "/page" +:+ ext) extensions) = true
  <-> is_Some (App.findPage vfs (appDir +:+ "/" +:+ entry)).
Proof. rewrite group_page_paths. apply find_existsb. Qed.

(** A route group of the app directory holds a page, seen by the loop of
    [hasAppRouter] and by the terminal case of [tryPath]. *)
Lemma group_scan_agree vfs appDir (make : string -> string -> AppRoute)
    (entries : list string) :
  existsb
    (fun entry =>
       App.isRouteGroupName entry
       && isDirectory vfs (appDir +:+ "/" +:+ entry)
       && existsb (exists_ vfs)
            (List.map (fun ext => appDir +:+ "/" +:+ entry +:+ "/page" +:+ ext)
               extensions))
    entries = true
  <-> is_Some
        (Js.firstSome
           (fun group =>
              match App.findPage vfs (appDir +:+ "/" +:+ group) with
              | Some page => Some (make group page)
              | None => None
              end)
           (List.filter
              (fun e => App.isRouteGroupName e && isDirectory vfs (appDir +:+ "/" +:+ e))
              entries)).
Proof.
  induction entries as [|entry entries IH].
  - split; [discriminate | intros [r Hr]; discriminate].
  - change (existsb ?f (entry :: entries)) with (f entry || existsb f entries).
    change (List.filter ?f (entry :: entries))
      with (if f entry then entry :: List.filter f entries else List.filter f entries).
    cbv beta.
    destruct (App.isRouteGroupName entry && isDirectory vfs (appDir +:+ "/" +:+ entry)).
    + change (Js.firstSome ?f (entry :: ?l))
        with (match f entry with Some r => Some r | None => Js.firstSome f l end).
      cbv beta. rewrite andb_true_l.
      destruct (App.findPage vfs (appDir +:+ "/" +:+ entry)) as [p|] eqn:Hp.
      * assert (existsb (exists_ vfs)
                  (List.map (fun ext => appDir +:+ "/" +:+ entry +:+ "/page" +:+ ext)
                     extensions) = true) as ->.
        { apply group_page_exists. rewrite Hp. eauto. }
        split; eauto.
      * destruct (existsb (exists_ vfs) _) eqn:Hex.
        { apply group_page_exists in Hex as [q Hq]. congruence. }
        exact IH.
    + rewrite andb_false_l. exact IH.
Qed.

(** X6. [hasAppRouter] holds exactly when the app directory exists and
    either the App router resolves the root URL to a page, or the app
    directory has a root layout. *)
Theorem hasAppRouter_iff (vfs : VirtualFS) (appDir : string) :
  RouteFiles.hasAppRouter vfs appDir = true
  <-> exists_ vfs appDir = true
      /\ (is_Some (App.resolveAppRoute vfs appDir "/")
          \/ App.rootLayouts vfs appDir <> []).
Proof.
  unfold RouteFiles.hasAppRouter, App.resolveAppRoute, App.resolveAppDynamicRoute.
  change (if String.eqb "/" "/" then [] else Js.segmentsOf "/") with (@nil string).
  rewrite App_tryPath_nil. unfold App.tryTerminal.
  destruct (exists_ vfs appDir);
    [|split; [discriminate | intros [H _]; discriminate]].
  change (negb true) with false. cbv iota.
  assert (existsb (exists_ vfs)
            (List.map (fun ext => appDir +:+ "/page" +:+ ext) extensions) = true
          <-> is_Some (App.findPage vfs appDir)) as Hpage.
  { apply find_existsb. }
  assert (existsb (exists_ vfs)
            (List.map (fun ext => appDir +:+ "/layout" +:+ ext) extensions) = true
          <-> App.rootLayouts vfs appDir <> []) as Hlayout.
  { rewrite find_existsb. unfold App.rootLayouts.
    destruct (List.find _ _); split; intros H; try discriminate; eauto.
    - now destruct H.
    - now contradiction H. }
  destruct (existsb _ (List.map (fun ext => appDir +:+ "/page" +:+ ext) extensions)) eqn:Hp.
  { destruct (proj1 Hpage eq_refl) as [p ->]. split; [|reflexivity].
    intros _. split; [reflexivity|]. left. eauto. }
  assert (App.findPage vfs appDir = None) as ->.
  { destruct (App.findPage vfs appDir); [|reflexivity].
    assert (false = true) by (apply Hpage; eauto). discriminate. }
  unfold App.getRouteGroups.
  destruct (readdirSync vfs appDir) as [entries|].
  - match goal with
    | |- context [Js.firstSome (fun group => match _ with
                                            | Some page => Some (@?mk group page)
                                            | None => None end) _] =>
        pose proof (group_scan_agree vfs appDir mk entries) as Hgroup
    end.
    cbv beta in Hgroup.
    destruct (existsb _ entries) eqn:Hg.
    + split; [|reflexivity]. intros _. split; [reflexivity|]. left.
      now apply Hgroup.
    + rewrite Hlayout. split.
      * intros H. split; [reflexivity|]. now right.
      * intros [_ [H|H]]; [|exact H]. apply Hgroup in H. discriminate.
  - rewrite Hlayout. split.
    + intros H. split; [reflexivity|]. now right.
    + intros [_ [[r Hr]|H]]; [discriminate | exact H].
Qed.

(** ** API files and imports without extension *)






(** ** The transform cache: other paths, and failures *)

Lemma cache_get_set_ne k k' v m :
  k <> k' ->
  TransformCache.get k' (TransformCache.set k v m) = TransformCache.get k' m.
Proof.
  intros Hne. unfold TransformCache.get.
  induction m as [|[k0 v0] m IH]; simpl.
  - apply String.eqb_neq in Hne. now rewrite Hne.
  - destruct (String.eqb k0 k) eqn:E; simpl.
    + apply String.eqb_eq in E as ->. apply String.eqb_neq in Hne. now rewrite Hne.
    + destruct (String.eqb k0 k'); [reflexivity | exact IH].
Qed.

Lemma cache_get_delete_ne k k' m :
  k <> k' ->
  TransformCache.get k' (TransformCache.delete k m) = TransformCache.get k' m.
Proof.
  intros Hne. unfold TransformCache.get.
  induction m as [|[k0 v0] m IH]; simpl; [reflexivity|].
  destruct (String.eqb k0 k) eqn:E; simpl.
  - apply String.eqb_eq in E as ->. apply String.eqb_neq in Hne. now rewrite Hne.
  - destruct (String.eqb k0 k'); [reflexivity | exact IH].
Qed.

Lemma cache_firstKey_set k v m :
  TransformCache.firstKey (TransformCache.set k v m) = Some k
  \/ TransformCache.firstKey (TransformCache.set k v m) = TransformCache.firstKey m.
Proof.
  destruct m as [|[k0 v0] m]; simpl; [now left|].
  destruct (String.eqb k0 k); [now left | now right].
Qed.

Lemma evict_get_other other m :
  TransformCache.firstKey m <> Some other ->
  TransformCache.get other (Transform.evict m) = TransformCache.get other m.
Proof.
  intros Hfirst. unfold Transform.evict.
  destruct (500 <? TransformCache.size m)%nat; [|reflexivity].
  destruct (TransformCache.firstKey m) as [k|]; [|reflexivity].
  destruct (Js.truthy k); [|reflexivity].
  apply cache_get_delete_ne. congruence.
Qed.

Section TransformFrame.

Variable simpleHash : string -> string.
Variable transformCode : VirtualFS -> string -> string -> string + string.
Variable readError : string -> string.
Variable quote : string -> string.

Local Abbreviation serve :=
  (Transform.transformAndServe simpleHash transformCode readError quote).

(** X9. Serving one file leaves the cached entry of every other path as it
    is, unless that path is the first in insertion order, the one eviction
    takes. *)
Theorem transformAndServe_frame
    (vfs : VirtualFS) (filePath other : string) (st : Transform.State)
    (Hother : other <> filePath)
    (Hfirst : TransformCache.firstKey (Transform.transformCache st) <> Some other) :
  TransformCache.get other (Transform.transformCache (snd (serve vfs filePath st)))
  = TransformCache.get other (Transform.transformCache st).
Proof.
  unfold Transform.transformAndServe.
  destruct (readFileSync vfs filePath) as [content|]; [|reflexivity].
  match goal with
  | |- context [match ?h with Some code => (Transform.hitResponse code, st) | None => _ end] =>
      destruct h as [code|]
  end; [reflexivity|].
  destruct (transformCode vfs content filePath) as [transformed|message]; [|reflexivity].
  cbn [snd Transform.transformCache].
  rewrite evict_get_other.
  - apply cache_get_set_ne. congruence.
  - destruct (cache_firstKey_set filePath
                {| TransformCache.code := transformed;
                   TransformCache.hash := simpleHash content |}
                (Transform.transformCache st)) as [-> | ->]; congruence.
Qed.

(** X10. When the file cannot be read, or the transform of new content
    fails, the response is still a 200 script, marked [X-Transform-Error],
    and the cache is left exactly as it was: the failure is not remembered,
    and the next request for the same content runs the transform again. *)
Theorem transformAndServe_failure
    (vfs : VirtualFS) (filePath : string) (st : Transform.State)
    (Hfail :
       readFileSync vfs filePath = None
       \/ exists content message,
           readFileSync vfs filePath = Some content
           /\ transformCode vfs content filePath = inr message
           /\ (forall entry,
                 TransformCache.get filePath (Transform.transformCache st) = Some entry ->
                 TransformCache.hash entry <> simpleHash content)) :
  let result := serve vfs filePath st in
  statusCode (fst result) = 200
  /\ headers (fst result) !! "X-Transform-Error" = Some "true"
  /\ Transform.transformCache (snd result) = Transform.transformCache st
  /\ (forall content,
        readFileSync vfs filePath = Some content ->
        Transform.transformCalls (snd (serve vfs filePath (snd result)))
        = Transform.transformCalls st ++ [(content, filePath); (content, filePath)]).
Proof.
  intros result. subst result.
  destruct Hfail as [Hread | (content & message & Hread & Hcompile & Hstale)].
  - unfold Transform.transformAndServe. rewrite Hread. simpl.
    split; [reflexivity|]. split; [reflexivity|]. split; [reflexivity|].
    intros content Hc. discriminate.
  - rewrite (serve_miss _ _ _ _ _ _ _ _ Hread Hstale). cbv zeta. rewrite Hcompile.
    cbn [fst snd Transform.transformCache].
    split; [reflexivity|]. split; [reflexivity|]. split; [reflexivity|].
    intros content' Hc. rewrite Hread in Hc. injection Hc as <-.
    rewrite serve_miss_calls with (content := content); [|exact Hread|exact Hstale].
    cbn [Transform.transformCalls]. now rewrite <- List.app_assoc.
Qed.

End TransformFrame.

Lemma transformAndServe_frame_witness :
  TransformCache.get (Samples.source 7)
    (Transform.transformCache
       (snd (Samples.serve Samples.selfFS (Samples.source 500) Samples.fullCache)))
  = TransformCache.get (Samples.source 7) (Transform.transformCache Samples.fullCache).
Proof.
  apply (transformAndServe_frame Samples.idHash Samples.markCompiled
           Samples.enoent Samples.quoted).
  - vm_compute. discriminate.
  - vm_compute. discriminate.
Defined.

Lemma transformAndServe_failure_witness :
  let result :=
    Transform.transformAndServe Samples.idHash Samples.rejectAll Samples.enoent
      Samples.quoted Samples.indexA "/pages/index.jsx" Transform.initial in
  statusCode (fst result) = 200
  /\ headers (fst result) !! "X-Transform-Error" = Some "true"
  /\ Transform.transformCache (snd result) = [].
Proof.
  intros result.
  destruct (transformAndServe_failure Samples.idHash Samples.rejectAll Samples.enoent
              Samples.quoted Samples.indexA "/pages/index.jsx" Transform.initial)
    as (Hstatus & Hheader & Hcache & _).
  - right. exists "A", "Unexpected token".
    split; [vm_compute; reflexivity|]. split; [reflexivity|].
    intros entry Hget. discriminate Hget.
  - split; [exact Hstatus|]. split; [exact Hheader | exact Hcache].
Defined.

(** ** The two response modes deliver the same bytes, up to [json] and [send] *)

Lemma append_nil_r s : s +:+ "" = s.
Proof.
  induction s as [|c s IH]; [reflexivity|].
  change (String c (s +:+ "") = String c s). now rewrite IH.
Qed.

Lemma joinChunks_app a b :
  Spec.joinChunks (a ++ b) = Spec.joinChunks a +:+ Spec.joinChunks b.
Proof.
  induction a as [|x a IH]; [reflexivity|].
  change (x +:+ Spec.joinChunks (a ++ b)
          = (x +:+ Spec.joinChunks a) +:+ Spec.joinChunks b).
  now rewrite IH, append_assoc.
Qed.

Lemma chunksIn_app a b : Spec.chunksIn (a ++ b) = Spec.chunksIn a ++ Spec.chunksIn b.
Proof. unfold Spec.chunksIn. apply omap_app. Qed.

Lemma chunksIn_chunks chunks :
  Spec.chunksIn (List.map StreamingResponse.onChunk chunks) = chunks.
Proof.
  induction chunks as [|c chunks IH]; [reflexivity|].
  change (c :: Spec.chunksIn (List.map StreamingResponse.onChunk chunks) = c :: chunks).
  now rewrite IH.
Qed.

Section ResponseModes.

Variable Json : Type.
Variable stringify : Json -> string.

Lemma streaming_run_chunks (calls : list (ResCall.t Json)) :
  forall s,
    (StreamingResponse.ended s = true -> StreamingResponse.headersSent s = true) ->
    Spec.chunksIn (StreamingResponse.trace (StreamingResponse.run Json stringify calls s))
    = Spec.chunksIn (StreamingResponse.trace s) ++ Spec.chunksOf stringify calls.
Proof.
  induction calls as [|c calls IH]; intros s Hinv.
  - simpl. now rewrite List.app_nil_r.
  - rewrite streaming_run_cons.
    destruct (streaming_call_effect Json stringify c s Hinv)
      as (started & Ht & Hstart & Hhs & He).
    rewrite IH.
    + rewrite Ht, !chunksIn_app, chunksIn_chunks.
      assert (Spec.chunksIn started = []) as ->.
      { destruct (negb (StreamingResponse.headersSent s) && Spec.startsResponse c)
          in Hstart;
          [destruct Hstart as (a & b & c0 & ->) | subst started]; reflexivity. }
      assert (Spec.chunksIn
                (if negb (StreamingResponse.ended s) && ResCall.isTerminal c
                 then [StreamingResponse.onEnd] else []) = []) as ->.
      { destruct (negb _ && _); reflexivity. }
      unfold Spec.chunksOf. simpl. now rewrite List.app_nil_r, <- List.app_assoc.
    + rewrite Hhs, He. intros H. apply orb_true_iff in H as [H|H].
      * rewrite (Hinv H). reflexivity.
      * unfold Spec.startsResponse. rewrite H. now rewrite !orb_true_r.
Qed.

(** X11. Whatever the handler calls on the streaming response, in whatever
    order, [onChunk] receives exactly the chunks of the calls, each once and
    in call order: no chunk is dropped, repeated or reordered, also after
    the response has ended. *)
Theorem streaming_chunks_complete (calls : list (ResCall.t Json)) :
  Spec.chunksIn
    (StreamingResponse.trace
       (StreamingResponse.run Json stringify calls
          StreamingResponse.createStreamingMockResponse))
  = Spec.chunksOf stringify calls.
Proof.
  rewrite streaming_run_chunks; [reflexivity|]. intros H. discriminate H.
Qed.

(** One call, seen from the buffered body. *)
Lemma mock_call_body (c : ResCall.t Json) s :
  MockResponse.responseBody (MockResponse.call Json stringify c s)
  = if Spec.replacesBody c then Spec.joinChunks (Spec.chunkOf stringify c)
    else MockResponse.responseBody s +:+ Spec.joinChunks (Spec.chunkOf stringify c).
Proof.
  destruct s as [sc sm h rb e hs ths r].
  destruct c as [code|name value|chunk|data|[text|o]|[d|]|[code|target] url];
    destruct e, hs;
    unfold MockResponse.call, MockResponse.end_;
    try destruct (Js.truthy d) eqn:Hd; cbn; rewrite ?Hd; cbn;
    rewrite ?append_nil_r; reflexivity.
Qed.

Lemma mock_run_body (calls : list (ResCall.t Json)) :
  forall s,
    existsb Spec.replacesBody calls = false ->
    MockResponse.responseBody (MockResponse.run Json stringify calls s)
    = MockResponse.responseBody s +:+ Spec.joinChunks (Spec.chunksOf stringify calls).
Proof.
  induction calls as [|c calls IH]; intros s Hkeep.
  - simpl. now rewrite append_nil_r.
  - simpl in Hkeep. apply orb_false_iff in Hkeep as [Hc Hcalls].
    rewrite mock_run_cons, (IH _ Hcalls), mock_call_body, Hc.
    unfold Spec.chunksOf. simpl. now rewrite joinChunks_app, append_assoc.
Qed.

Lemma mock_run_app (pre post : list (ResCall.t Json)) s :
  MockResponse.run Json stringify (pre ++ post) s
  = MockResponse.run Json stringify post (MockResponse.run Json stringify pre s).
Proof. apply List.fold_left_app. Qed.

(** X12. For a handler that does not call [json] or [send], the two response
    modes deliver the same bytes: the body the buffered response accumulates
    is the concatenation of the chunks the streaming response hands to
    [onChunk]. *)
Theorem buffered_body_is_streamed_chunks
    (calls : list (ResCall.t Json))
    (Hkeep : existsb Spec.replacesBody calls = false) :
  MockResponse.responseBody
    (MockResponse.run Json stringify calls MockResponse.createMockResponse)
  = Spec.joinChunks
      (Spec.chunksIn
         (StreamingResponse.trace
            (StreamingResponse.run Json stringify calls
               StreamingResponse.createStreamingMockResponse))).
Proof.
  rewrite streaming_run_chunks by (intros H; discriminate H).
  rewrite (mock_run_body calls _ Hkeep). reflexivity.
Qed.

(** X13. [json] and [send] assign the buffered body instead of appending to
    it: what was written before the last of them is dropped from the
    buffered response, while the streaming response has already delivered
    it. *)
Theorem buffered_json_replaces_body
    (pre post : list (ResCall.t Json)) (c : ResCall.t Json)
    (Hc : Spec.replacesBody c = true)
    (Hpost : existsb Spec.replacesBody post = false) :
  MockResponse.responseBody
    (MockResponse.run Json stringify (pre ++ c :: post) MockResponse.createMockResponse)
  = Spec.joinChunks (Spec.chunksOf stringify (c :: post))
  /\ Spec.chunksIn
       (StreamingResponse.trace
          (StreamingResponse.run Json stringify (pre ++ c :: post)
             StreamingResponse.createStreamingMockResponse))
     = Spec.chunksOf stringify pre ++ Spec.chunksOf stringify (c :: post).
Proof.
  split.
  - rewrite mock_run_app, mock_run_cons, (mock_run_body post _ Hpost),
      mock_call_body, Hc.
    unfold Spec.chunksOf. simpl. now rewrite joinChunks_app.
  - rewrite streaming_run_chunks; [|intros H; discriminate H]. apply List.flat_map_app.
Qed.

End ResponseModes.

Lemma buffered_body_is_streamed_chunks_witness :
  MockResponse.responseBody
    (MockResponse.run string Samples.jsonText
       [ResCall.write "a"; ResCall.write "b"; ResCall.end_ (Some "c")]
       MockResponse.createMockResponse)
  = Spec.joinChunks
      (Spec.chunksIn
         (StreamingResponse.trace
            (StreamingResponse.run string Samples.jsonText
               [ResCall.write "a"; ResCall.write "b"; ResCall.end_ (Some "c")]
               StreamingResponse.createStreamingMockResponse))).
Proof. apply buffered_body_is_streamed_chunks. reflexivity. Defined.

Lemma buffered_json_replaces_body_witness :
  MockResponse.responseBody
    (MockResponse.run string Samples.jsonText
       ([ResCall.write "partial"] ++ ResCall.json "{}" :: [])
       MockResponse.createMockResponse)
  = Spec.joinChunks (Spec.chunksOf Samples.jsonText [ResCall.json "{}"])
  /\ Spec.chunksIn
       (StreamingResponse.trace
          (StreamingResponse.run string Samples.jsonText
             ([ResCall.write "partial"] ++ ResCall.json "{}" :: [])
             StreamingResponse.createStreamingMockResponse))
     = Spec.chunksOf Samples.jsonText [ResCall.write "partial"]
       ++ Spec.chunksOf Samples.jsonText [ResCall.json "{}"].
Proof. apply buffered_json_replaces_body; reflexivity. Defined.

(** ** Cookies of the mock request *)

Lemma noneOf_weaken (p q : ascii -> bool) s :
  (forall c, q c = true -> p c = true) ->
  Spec.noneOf p s = true -> Spec.noneOf q s = true.
Proof.
  intros Hpq. induction s as [|c s IH]; simpl; [reflexivity|].
  intros H. apply andb_true_iff in H as [Hc Hs]. rewrite (IH Hs), andb_true_r.
  apply negb_true_iff in Hc. apply negb_true_iff.
  destruct (q c) eqn:Hq; [|reflexivity]. rewrite (Hpq c Hq) in Hc. discriminate.
Qed.

Lemma split_token sep s :
  Spec.noneOf (fun c => Ascii.eqb c sep) s = true -> Js.split sep s = [s].
Proof.
  induction s as [|c s IH]; simpl; [reflexivity|].
  intros H. apply andb_true_iff in H as [Hc Hs]. apply negb_true_iff in Hc.
  now rewrite Hc, (IH Hs).
Qed.

Lemma trimStart_clean s :
  Spec.noneOf MockRequest.isSpace s = true -> MockRequest.trimStart s = s.
Proof.
  destruct s as [|c s]; simpl; [reflexivity|].
  intros H. apply andb_true_iff in H as [Hc _]. apply negb_true_iff in Hc.
  now rewrite Hc.
Qed.

Lemma trimEnd_clean s :
  Spec.noneOf MockRequest.isSpace s = true -> MockRequest.trimEnd s = s.
Proof.
  induction s as [|c s IH]; simpl; [reflexivity|].
  intros H. apply andb_true_iff in H as [Hc Hs]. apply negb_true_iff in Hc.
  rewrite (IH Hs), Hc. now destruct s.
Qed.

Lemma trim_clean s :
  Spec.noneOf MockRequest.isSpace s = true ->
  MockRequest.trim s = s /\ MockRequest.trim (" " +:+ s) = s.
Proof.
  intros H. unfold MockRequest.trim.
  change (MockRequest.trimStart (" " +:+ s)) with (MockRequest.trimStart s).
  now rewrite trimStart_clean, trimEnd_clean.
Qed.

Section CookieFacts.

Variable Json : Type.
Variable parseJson : string -> option Json.
Variable decodeURIComponent : string -> option string.
Variable formDecode : string -> string.

(** One iteration of the [forEach] of [parseCookies]. *)
Local Abbreviation cookieStep :=
  (fun (acc : option (gmap string string)) (cookie : string) =>
     match acc with
     | None => None
     | Some cookies =>
         match Js.split "=" (MockRequest.trim cookie) with
         | name :: value :: _ =>
             if Js.truthy name && Js.truthy value then
               match decodeURIComponent value with
               | Some decoded => Some (<[name := decoded]> cookies)
               | None => None
               end
             else Some cookies
         | _ => Some cookies
         end
     end).

(** What the client meant: each cookie bound to its decoded value, a later
    one overriding an earlier one; nothing at all if a value does not
    decode. *)
Local Abbreviation meant :=
  (fun (acc : option (gmap string string)) (cookie : string * string) =>
     match acc with
     | None => None
     | Some cookies =>
         match decodeURIComponent (snd cookie) with
         | Some decoded => Some (<[fst cookie := decoded]> cookies)
         | None => None
         end
     end).

Lemma token_facts s :
  Spec.cookieToken s = true ->
  Js.truthy s = true
  /\ Spec.noneOf (fun c => Ascii.eqb c ";") s = true
  /\ Spec.noneOf (fun c => Ascii.eqb c "=") s = true
  /\ Spec.noneOf MockRequest.isSpace s = true.
Proof.
  unfold Spec.cookieToken. intros H. apply andb_true_iff in H as [Ht Hn].
  split; [exact Ht|].
  repeat split; (eapply noneOf_weaken; [|exact Hn]); intros c Hc; cbv beta;
    rewrite Hc, ?orb_true_r; reflexivity.
Qed.

Lemma piece_facts name value :
  Spec.cookieToken name = true -> Spec.cookieToken value = true ->
  Spec.noneOf (fun c => Ascii.eqb c ";") (Spec.pieceOf (name, value)) = true
  /\ Spec.noneOf MockRequest.isSpace (Spec.pieceOf (name, value)) = true
  /\ Js.split "=" (Spec.pieceOf (name, value)) = [name; value].
Proof.
  intros Hn Hv.
  destruct (token_facts _ Hn) as (_ & Hn1 & Hn2 & Hn3).
  destruct (token_facts _ Hv) as (_ & Hv1 & Hv2 & Hv3).
  unfold Spec.pieceOf. simpl fst. simpl snd.
  split; [|split].
  - apply noneOf_append; [exact Hn1|]. apply noneOf_append; [reflexivity | exact Hv1].
  - apply noneOf_append; [exact Hn3|]. apply noneOf_append; [reflexivity | exact Hv3].
  - change (name +:+ "=" +:+ value) with (name +:+ String "=" value).
    now rewrite split_app_sep, (split_token _ _ Hn2), (split_token _ _ Hv2).
Qed.

Lemma cookieStep_piece acc name value (lead : bool) :
  Spec.cookieToken name = true -> Spec.cookieToken value = true ->
  cookieStep acc ((if lead then " " else "") +:+ Spec.pieceOf (name, value))
  = meant acc (name, value).
Proof.
  intros Hn Hv. destruct acc as [cookies|]; [|reflexivity].
  destruct (piece_facts name value Hn Hv) as (_ & Hspace & Hsplit).
  destruct (trim_clean _ Hspace) as [Ht1 Ht2].
  assert (MockRequest.trim ((if lead then " " else "") +:+ Spec.pieceOf (name, value))
          = Spec.pieceOf (name, value)) as ->.
  { destruct lead; [exact Ht2 | exact Ht1]. }
  rewrite Hsplit.
  destruct (token_facts _ Hn) as (-> & _). destruct (token_facts _ Hv) as (-> & _).
  reflexivity.
Qed.

Lemma split_cookieHeader (cookie : string * string) (rest : list (string * string)) :
  List.Forall (fun c => Spec.cookieToken (fst c) = true /\ Spec.cookieToken (snd c) = true)
    (cookie :: rest) ->
  Js.split ";" (Spec.cookieHeader (cookie :: rest))
  = Spec.pieceOf cookie :: List.map (fun c => " " +:+ Spec.pieceOf c) rest.
Proof.
  revert cookie. induction rest as [|next rest IH]; intros [name value] Hall.
  - inversion Hall as [|? ? [Hn Hv] _]; subst.
    destruct (piece_facts name value Hn Hv) as (Hsemi & _).
    simpl. now apply split_token.
  - inversion Hall as [|? ? [Hn Hv] Hrest]; subst.
    destruct (piece_facts name value Hn Hv) as (Hsemi & _).
    change (Spec.cookieHeader ((name, value) :: next :: rest))
      with (name +:+ "=" +:+ value +:+ "; " +:+ Spec.cookieHeader (next :: rest)).
    rewrite <- (append_assoc "=" value), <- (append_assoc name ("=" +:+ value)).
    change ((name +:+ "=" +:+ value) +:+ "; " +:+ Spec.cookieHeader (next :: rest))
      with (Spec.pieceOf (name, value)
              +:+ String ";" (" " +:+ Spec.cookieHeader (next :: rest))).
    rewrite split_app_sep, (split_token _ _ Hsemi).
    change (Js.split ";" (" " +:+ Spec.cookieHeader (next :: rest)))
      with (match Js.split ";" (Spec.cookieHeader (next :: rest)) with
            | x :: xs => String " " x :: xs
            | [] => [String " " ""]
            end).
    rewrite (IH next Hrest). reflexivity.
Qed.

Lemma fold_cookieSteps (cookies : list (string * string)) :
  List.Forall (fun c => Spec.cookieToken (fst c) = true /\ Spec.cookieToken (snd c) = true)
    cookies ->
  forall acc,
    List.fold_left cookieStep (List.map (fun c => " " +:+ Spec.pieceOf c) cookies) acc
    = List.fold_left meant cookies acc.
Proof.
  induction 1 as [|[name value] cookies [Hn Hv] _ IH]; intros acc; [reflexivity|].
  simpl List.map. simpl List.fold_left.
  rewrite <- IH. f_equal.
  exact (cookieStep_piece acc name value true Hn Hv).
Qed.

(** The parser and the header of well-formed cookies. *)
Lemma parseCookies_cookieHeader (cookies : list (string * string)) :
  List.Forall (fun c => Spec.cookieToken (fst c) = true /\ Spec.cookieToken (snd c) = true)
    cookies ->
  MockRequest.parseCookies decodeURIComponent (Spec.cookieHeader cookies)
  = List.fold_left meant cookies (Some ∅).
Proof.
  intros Hall. destruct cookies as [|[name value] rest]; [reflexivity|].
  unfold MockRequest.parseCookies.
  assert (Js.truthy (Spec.cookieHeader ((name, value) :: rest)) = true) as ->.
  { inversion Hall as [|? ? [Hn _] _]; subst.
    destruct (token_facts _ Hn) as (Ht & _).
    destruct name as [|c name]; [discriminate|]. now destruct rest. }
  simpl negb. cbv iota.
  rewrite (split_cookieHeader _ _ Hall).
  inversion Hall as [|? ? [Hn Hv] Hrest]; subst.
  simpl List.fold_left at 1. rewrite (fold_cookieSteps rest Hrest). simpl List.fold_left at 2.
  f_equal. exact (cookieStep_piece (Some ∅) name value false Hn Hv).
Qed.

Lemma meant_fold_None (cookies : list (string * string)) :
  List.fold_left meant cookies None = None.
Proof. induction cookies as [|c cookies IH]; [reflexivity | exact IH]. Qed.

Lemma meant_fold_bad (cookies : list (string * string)) name value :
  List.In (name, value) cookies -> decodeURIComponent value = None ->
  forall acc, List.fold_left meant cookies acc = None.
Proof.
  induction cookies as [|c cookies IH]; intros Hin Hbad acc; [destruct Hin|].
  destruct Hin as [->|Hin].
  - simpl. rewrite Hbad. destruct acc; apply meant_fold_None.
  - simpl. now apply IH.
Qed.

End CookieFacts.

Section Cookies.

Variable decodeURIComponent : string -> option string.


Variable Json : Type.
Variable parseJson : string -> option Json.
Variable formDecode : string -> string.

(** X15. One cookie whose value does not decode is enough to make
    [createMockRequest] throw, whatever the other cookies, the URL and the
    body are: no request object is built for the handler. *)
Theorem createMockRequest_bad_cookie
    (method pathname : string) (headers : gmap string string)
    (body : option string)
    (cookies : list (string * string)) (name value : string)
    (Hwell : List.Forall
               (fun c => Spec.cookieToken (fst c) = true
                         /\ Spec.cookieToken (snd c) = true) cookies)
    (Hin : List.In (name, value) cookies)
    (Hbad : decodeURIComponent value = None)
    (Hheader : headers !! "cookie" = Some (Spec.cookieHeader cookies)) :
  MockRequest.createMockRequest Json parseJson decodeURIComponent formDecode
    method pathname headers body = None.
Proof.
  unfold MockRequest.createMockRequest. rewrite Hheader.
  change (default "" (Some (Spec.cookieHeader cookies)))
    with (Spec.cookieHeader cookies).
  rewrite (parseCookies_cookieHeader decodeURIComponent cookies Hwell).
  rewrite (meant_fold_bad decodeURIComponent cookies name value Hin Hbad).
  destruct body as [b|]; [destruct (parseJson b)|]; reflexivity.
Qed.

End Cookies.


Lemma createMockRequest_bad_cookie_witness :
  MockRequest.createMockRequest string Some Samples.decodePlain (fun s => s)
    "GET" "/api/hello" (<["cookie" := "theme=dark; id=%E0%A4%A"]> ∅) None = None.
Proof.
  apply (createMockRequest_bad_cookie Samples.decodePlain string Some (fun s => s)
           "GET" "/api/hello" _ None
           [("theme", "dark"); ("id", "%E0%A4%A")] "id" "%E0%A4%A").
  - repeat constructor.
  - right. left. reflexivity.
  - reflexivity.
  - vm_compute. reflexivity.
Defined.

(** ** The virtual prefix of a requested URL *)



Lemma startsWith_slash s :
  Js.startsWith "/" s = true -> exists r, s = String "/" r.
Proof.
  destruct s as [|d s]; [discriminate|]. unfold Js.startsWith.
  change (String.prefix "/" (String d s))
    with (if ascii_dec "/" d then String.prefix "" s else false).
  destruct (ascii_dec "/" d) as [<-|]; [|discriminate]. now exists s.
Qed.




(** ** Configuration values *)

Lemma startsWith_slash_cons r : Js.startsWith "/" (String "/" r) = true.
Proof. unfold Js.startsWith. simpl. now destruct r. Qed.

Lemma normalize_shape value :
  Config.normalize value = "" \/ Js.startsWith "/" (Config.normalize value) = true.
Proof.
  unfold Config.normalize.
  set (val := if Js.startsWith "/" value then value else "/" +:+ value).
  assert (exists r, val = String "/" r) as [r Hval].
  { subst val. destruct (Js.startsWith "/" value) eqn:Hv.
    - exact (startsWith_slash value Hv).
    - now exists value. }
  rewrite Hval. destruct (Js.endsWith "/" (String "/" r)).
  - unfold Js.slice. destruct r as [|c r]; [now left|]. right.
    change (String.length (String "/" (String c r)) - 1 - 0)
      with (S (String.length r)).
    change (substring 0 (S (String.length r)) (String "/" (String c r)))
      with (String "/" (substring 0 (String.length r) (String c r))).
    apply startsWith_slash_cons.
  - right. apply startsWith_slash_cons.
Qed.

(** X16. A configured [basePath] or [assetPrefix], whether it comes from the
    options or from a [next.config] file, is either empty or begins with a
    slash. *)
Theorem loadConfigStringValue_shape
    (existsSync : string -> bool)
    (parseNextConfigValue : string -> string -> bool -> option (option string))
    (vfs : VirtualFS) (key : string) (optionValue : option string) :
  Config.loadConfigStringValue existsSync parseNextConfigValue vfs key optionValue = ""
  \/ Js.startsWith "/"
       (Config.loadConfigStringValue existsSync parseNextConfigValue vfs key optionValue)
     = true.
Proof.
  unfold Config.loadConfigStringValue.
  destruct optionValue as [value|]; [apply normalize_shape|].
  induction Config.configFiles as [|[path isTs] files IH]; [now left|].
  simpl. destruct (negb (existsSync path)); [exact IH|].
  destruct (readFileSync vfs path) as [content|]; [|now left].
  destruct (parseNextConfigValue content key isTs) as [[value|]|];
    [|exact IH|now left].
  destruct (Js.truthy value); [apply normalize_shape | exact IH].
Qed.

(** X17. A variable whose name does not begin with [NEXT_PUBLIC_] leaves no
    trace in the script injected into the page: with or without it, and
    whatever its value, the script is the same. *)
Theorem generateEnvScript_hides_private
    (stringifyEnv : list (string * string) -> string) (quote : string -> string)
    (before after : list (string * string)) (key value basePath : string)
    (Hprivate : Js.startsWith "NEXT_PUBLIC_" key = false) :
  Config.generateEnvScript stringifyEnv quote (before ++ (key, value) :: after) basePath
  = Config.generateEnvScript stringifyEnv quote (before ++ after) basePath.
Proof.
  unfold Config.generateEnvScript, Config.publicEnvVars.
  rewrite !List.filter_app. simpl List.filter. simpl fst. now rewrite Hprivate.
Qed.

Lemma generateEnvScript_hides_private_witness :
  Config.generateEnvScript (fun env => String.concat "," (List.map fst env)) Samples.quoted
    ([("NEXT_PUBLIC_API", "/api")] ++ ("DATABASE_URL", "postgres://secret") :: []) ""
  = Config.generateEnvScript (fun env => String.concat "," (List.map fst env)) Samples.quoted
      ([("NEXT_PUBLIC_API", "/api")] ++ []) "".
Proof.
  apply (generateEnvScript_hides_private _ Samples.quoted
           [("NEXT_PUBLIC_API", "/api")] [] "DATABASE_URL" "postgres://secret" "").
  reflexivity.
Defined.

(** ** Route handlers and route parameters *)

Lemma resolveAppRoute_needs_page vfs appDir pathname :
  (forall dir, App.findPage vfs dir = None) ->
  App.resolveAppRoute vfs appDir pathname = None.
Proof.
  intros Hnone. destruct (App.resolveAppRoute vfs appDir pathname) as [route|] eqn:Hroute;
    [|reflexivity].
  unfold App.resolveAppRoute, App.resolveAppDynamicRoute in Hroute.
  apply tryPath_Resolved in Hroute as (d & _ & Hpage & _).
  rewrite Hnone in Hpage. discriminate.
Qed.

Lemma lookupHandler_withoutParams {Request : Type}
    (exports : RouteHandler.Exports Request) method :
  RouteHandler.lookupHandler Request (Spec.withoutParams <$> exports) method
  = Spec.withoutParams <$> RouteHandler.lookupHandler Request exports method.
Proof.
  unfold RouteHandler.lookupHandler, RouteHandler.Exports in *. cbv zeta.
  rewrite !lookup_fmap.
  destruct (exports !! Js.toUpperCase method) as [[h|[|]]|]; reflexivity.
Qed.

(** X18. The parameters a route handler receives are those of the page that
    answers the same path. In an application without any page file no
    handler ever receives a parameter: the response is the one obtained by
    calling every exported function with empty parameters, also for a route
    file in a dynamic directory such as [api/users/[id]]. *)
Theorem route_handler_params_need_page
    (Request : Type)
    (newRequest : string -> string -> gmap string string -> option string
                  -> Request + string)
    (transformApiHandler : string -> string -> string + string)
    (evalModule : string -> RouteHandler.Exports Request + string)
    (readError : string -> string) (quote : string -> string)
    (vfs : VirtualFS) (appDir method pathname : string)
    (headers : gmap string string) (body : option string)
    (routeFile : string) (search : option string)
    (Hnopage : forall dir, App.findPage vfs dir = None) :
  RouteHandler.handleAppRouteHandler Request newRequest transformApiHandler
    evalModule readError quote vfs appDir method pathname headers body routeFile search
  = RouteHandler.handleAppRouteHandler Request newRequest transformApiHandler
      (Spec.evalWithoutParams evalModule) readError quote
      vfs appDir method pathname headers body routeFile search.
Proof.
  unfold RouteHandler.handleAppRouteHandler, Spec.evalWithoutParams.
  rewrite (resolveAppRoute_needs_page vfs appDir pathname Hnopage).
  destruct (readFileSync vfs routeFile) as [code|]; [|reflexivity].
  destruct (transformApiHandler code routeFile) as [transformed|]; [|reflexivity].
  destruct (evalModule transformed) as [exports|]; [|reflexivity].
  rewrite lookupHandler_withoutParams.
  destruct (RouteHandler.lookupHandler Request exports method) as [[h|t]|];
    reflexivity.
Qed.

Lemma includes_prefix sub s : String.prefix sub s = true -> Js.includes sub s = true.
Proof.
  intros H. destruct s as [|c s].
  - destruct sub; [reflexivity | discriminate].
  - change (Js.includes sub (String c s))
      with (String.prefix sub (String c s) || Js.includes sub s).
    now rewrite H.
Qed.

Lemma includes_app sub a b : Js.includes sub (a +:+ sub +:+ b) = true.
Proof.
  induction a as [|c a IH].
  - change ("" +:+ sub +:+ b) with (sub +:+ b).
    apply includes_prefix, prefix_refl_app.
  - change (String c a +:+ sub +:+ b) with (String c (a +:+ sub +:+ b)).
    simpl. rewrite IH. apply orb_true_r.
Qed.

Lemma prefix_split a s : String.prefix a s = true -> exists rest, s = a +:+ rest.
Proof.
  revert a. induction s as [|c s IH]; intros [|d a] H.
  - now exists "".
  - discriminate.
  - now exists (String c s).
  - simpl in H. destruct (ascii_dec d c) as [->|]; [|discriminate].
    destruct (IH a H) as [rest ->]. now exists rest.
Qed.

(** In a file system given by its files, a path that exists is a file or
    the beginning of one. *)
Lemma memfs_exists_includes files sub a b :
  exists_ (MemFS.make files) (a +:+ sub +:+ b) = true ->
  existsb (fun f => Js.includes sub (fst f)) files = true.
Proof.
  simpl. unfold MemFS.isFile, MemFS.isDir. intros H.
  apply orb_true_iff in H as [H|H]; apply existsb_exists in H as (f & Hin & Hf);
    apply existsb_exists; exists f; (split; [exact Hin|]).
  - apply String.eqb_eq in Hf. rewrite Hf. apply includes_app.
  - apply prefix_split in Hf as [rest ->].
    rewrite !append_assoc. apply includes_app.
Qed.

Lemma memfs_no_page files :
  existsb (fun f => Js.includes "/page" (fst f)) files = false ->
  forall dir, App.findPage (MemFS.make files) dir = None.
Proof.
  intros Hnone dir. unfold App.findPage.
  destruct (List.find _ _) as [p|] eqn:Hfind; [|reflexivity].
  apply List.find_some in Hfind as [Hin Hex].
  apply List.in_map_iff in Hin as (ext & <- & _).
  apply memfs_exists_includes in Hex. congruence.
Qed.

Lemma route_handler_params_need_page_witness :
  RouteHandler.handleAppRouteHandler unit
    (fun _ _ _ _ => inl tt) (fun code _ => inl code) (fun _ => inl Samples.reportId)
    Samples.enoent Samples.quoted Samples.apiOnly "/app" "GET" "/api/users/42" ∅ None
    "/app/(v1)/api/users/[id]/route.ts" None
  = RouteHandler.handleAppRouteHandler unit
      (fun _ _ _ _ => inl tt) (fun code _ => inl code)
      (Spec.evalWithoutParams (fun _ => inl Samples.reportId))
      Samples.enoent Samples.quoted Samples.apiOnly "/app" "GET" "/api/users/42" ∅ None
      "/app/(v1)/api/users/[id]/route.ts" None.
Proof.
  apply (route_handler_params_need_page unit).
  apply memfs_no_page. vm_compute. reflexivity.
Defined.

(** ** The dispatcher *)




Lemma api_path_not_internal pathname :
  Js.startsWith "/api/" pathname = true ->
  Js.startsWith "/_next/shims/" pathname = false
  /\ String.eqb pathname "/_next/route-info" = false
  /\ Js.startsWith "/_next/pages/" pathname = false
  /\ Js.startsWith "/_next/app/" pathname = false
  /\ Js.startsWith "/_next/static/" pathname = false.
Proof.
  intros H. apply prefix_split in H as [rest ->]. repeat split; reflexivity.
Qed.

(** X20. A path under [/api/] is answered by an App route handler or by the
    Pages API route and by nothing else: no file of the public directory,
    no source file and no page is served for it. *)
Theorem handleRequest_api_paths
    (formDecode : string -> string) (vfs : VirtualFS)
    (settings : Dispatch.Settings) (url : string)
    (Hapi : Js.startsWith "/api/"
              (MockRequest.requestPathname (Dispatch.assetPrefix settings)
                 (Dispatch.basePath settings) url) = true) :
  let pathname :=
    MockRequest.requestPathname (Dispatch.assetPrefix settings)
      (Dispatch.basePath settings) url in
  Dispatch.handleRequest formDecode vfs settings url
  = match
      if Dispatch.useAppRouter settings
      then RouteFiles.resolveAppRouteHandler vfs (Dispatch.appDir settings) pathname
      else None
    with
    | Some routeFile =>
        Dispatch.handleAppRouteHandler pathname routeFile (Url.search (Url.parse url))
    | None => Dispatch.handleApiRoute pathname
    end.
Proof.
  intros pathname. unfold Dispatch.handleRequest. cbv zeta. fold pathname.
  fold pathname in Hapi.
  destruct (api_path_not_internal pathname Hapi) as (-> & -> & -> & -> & ->).
  now rewrite Hapi.
Qed.

Lemma handleRequest_api_paths_witness :
  Dispatch.handleRequest (fun s => s) Samples.publicApi Samples.pagesOnly "/api/data.json"
  = Dispatch.handleApiRoute "/api/data.json".
Proof.
  exact (handleRequest_api_paths (fun s => s) Samples.publicApi Samples.pagesOnly
           "/api/data.json" eq_refl).
Defined.

(** ** Requests without a body *)

(** X21. A [GET] or [HEAD] request reaches a route handler without its body,
    in whatever case the method is written: the response is the one of the
    same request sent with no body at all. *)
Theorem route_handler_get_has_no_body
    (Request : Type)
    (newRequest : string -> string -> gmap string string -> option string
                  -> Request + string)
    (transformApiHandler : string -> string -> string + string)
    (evalModule : string -> RouteHandler.Exports Request + string)
    (readError : string -> string) (quote : string -> string)
    (vfs : VirtualFS) (appDir method pathname : string)
    (headers : gmap string string) (body : option string)
    (routeFile : string) (search : option string)
    (Hmethod : Js.toUpperCase method = "GET" \/ Js.toUpperCase method = "HEAD") :
  RouteHandler.handleAppRouteHandler Request newRequest transformApiHandler
    evalModule readError quote vfs appDir method pathname headers body routeFile search
  = RouteHandler.handleAppRouteHandler Request newRequest transformApiHandler
      evalModule readError quote vfs appDir method pathname headers None routeFile search.
Proof.
  unfold RouteHandler.handleAppRouteHandler. cbv zeta.
  destruct body as [b|]; [|reflexivity].
  destruct Hmethod as [-> | ->]; reflexivity.
Qed.

Lemma route_handler_get_has_no_body_witness :
  RouteHandler.handleAppRouteHandler (option string) Samples.keepBody
    (fun code _ => inl code) (fun _ => inl Samples.echoBody)
    Samples.enoent Samples.quoted Samples.itemsRoute "/app" "get" "/api/items" ∅
    (Some "{}") "/app/api/items/route.ts" None
  = RouteHandler.handleAppRouteHandler (option string) Samples.keepBody
      (fun code _ => inl code) (fun _ => inl Samples.echoBody)
      Samples.enoent Samples.quoted Samples.itemsRoute "/app" "get" "/api/items" ∅
      None "/app/api/items/route.ts" None.
Proof.
  apply (route_handler_get_has_no_body (option string)).
  left. vm_compute. reflexivity.
Defined.

(** ** Page components for client-side navigation *)

Lemma replaceFirst_prefix pat s : Js.replaceFirst pat (pat +:+ s) = s.
Proof.
  assert (forall t, Js.replaceFirst pat t
                    = if String.prefix pat t then Js.sliceFrom (String.length pat) t
                      else match t with
                           | EmptyString => EmptyString
                           | String c t' => String c (Js.replaceFirst pat t')
                           end) as Hunfold.
  { intros t. now destruct t. }
  now rewrite Hunfold, prefix_refl_app, sliceFrom_append.
Qed.

Lemma substring_append a b : String.substring 0 (String.length a) (a +:+ b) = a.
Proof.
  induction a as [|c a IH]; [now destruct b|].
  change (String c (String.substring 0 (String.length a) (a +:+ b)) = String c a).
  now rewrite IH.
Qed.

Lemma dropJsSuffix_append route : Files.dropJsSuffix (route +:+ ".js") = route.
Proof.
  unfold Files.dropJsSuffix. rewrite endsWith_append, length_append.
  replace (String.length route + String.length ".js" - 3) with (String.length route)
    by (simpl; lia).
  apply substring_append.
Qed.

(** X22. The address the client builds for the page of a route,
    [/_next/pages<route>.js], serves the file the Pages router resolves for
    that route, transformed, and is not found exactly when the route has no
    page. *)
Theorem servePageComponent_round_trip
    (simpleHash : string -> string)
    (transformCode : VirtualFS -> string -> string -> string + string)
    (readError : string -> string) (quote : string -> string)
    (notFound : string -> ResponseData)
    (vfs : VirtualFS) (pagesDir route : string) (st : Transform.State) :
  Components.servePageComponent simpleHash transformCode readError quote notFound
    vfs pagesDir ("/_next/pages" +:+ route +:+ ".js") st
  = match Pages.resolvePageFile vfs pagesDir route with
    | Some pageFile =>
        Transform.transformAndServe simpleHash transformCode readError quote
          vfs pageFile st
    | None => (notFound ("/_next/pages" +:+ route +:+ ".js"), st)
    end.
Proof.
  unfold Components.servePageComponent. cbv zeta.
  rewrite replaceFirst_prefix, dropJsSuffix_append.
  now destruct (Pages.resolvePageFile vfs pagesDir route).
Qed.

(** ** The virtual prefix and the dispatcher *)





(** ** App components for client-side navigation *)




